(** * The DaYuan corridor network of [flow/networks/da_yuan.py]

    A shallow embedding of the class [DaYuanNetwork]: the nodes, edges,
    connections and weighted routes it hands to the simulator, and the
    referential-integrity properties that tie the four collections
    together; then the start positions of the class and the example script
    [examples/sumo/traffic_light_dayuan.py] that builds the network, with
    the properties that tie them to the collections.

    Python values are modelled as the code has them: integers as [Z],
    floating point numbers as binary64 primitive floats, strings as
    [string], the dicts with a fixed set of keys as records, and the dicts
    that are filled key by key ([routes], [con_dict]) as insertion-ordered
    association lists, since Python dicts keep insertion order. *)

From Stdlib Require Import ZArith List Bool.
From Stdlib Require Import Floats.PrimFloat.
From Stdlib Require Import Strings.Ascii.
From Stdlib Require Import Numbers.DecimalString Numbers.DecimalPos Numbers.DecimalZ.
From stdpp Require Import base decidable option list strings gmap.

Set Warnings "-inexact-float".
#[local] Open Scope string_scope.
#[local] Open Scope list_scope.
#[local] Open Scope Z_scope.

(** ** Python values *)

(** The values a parameter dict can hold. *)
Inductive pyval : Type :=
  | VNone
  | VBool (b : bool)
  | VInt (n : Z)
  | VFloat (f : float)
  | VStr (s : string).

(** Truth value testing, as [if v] and [v if c else w] perform it. *)
Definition truthy (v : pyval) : bool :=
  match v with
  | VNone => false
  | VBool b => b
  | VInt n => negb (Z.eqb n 0)
  | VFloat f => negb (PrimFloat.eqb f 0%float)
  | VStr s => negb (String.eqb s "")
  end.

(** [str(n)] for an integer. *)
Definition str (n : Z) : string := NilZero.string_of_int (Z.to_int n).

(** [range(n)]. *)
Definition range (n : nat) : list Z := map Z.of_nat (seq 0 n).

(** *** Insertion-ordered dicts *)

Module PyDict.
Section Dict.
Context {V : Type}.

Definition t : Type := list (string * V).

Definition empty : t := [].

(** [d[k] = v]: an existing key keeps its place, a new key goes last. *)
Fixpoint setitem (k : string) (v : V) (d : t) : t :=
  match d with
  | [] => [(k, v)]
  | (k', v') :: d' =>
      if String.eqb k k' then (k, v) :: d' else (k', v') :: setitem k v d'
  end.

(** [d.get(k)]. *)
Fixpoint get (k : string) (d : t) : option V :=
  match d with
  | [] => None
  | (k', v') :: d' => if String.eqb k k' then Some v' else get k d'
  end.

(** [list(d.keys())]. *)
Definition keys (d : t) : list string := map fst d.

(** [list(d.items())]. *)
Definition items (d : t) : list (string * V) := d.
End Dict.
Arguments t : clear implicits.
End PyDict.

(** ** Parameters and the instance *)

(** [NetParams]: only [additional_params] is read by this class. *)
Record NetParams : Type := {
  additional_params : gmap string pyval
}.

(** [d.get(key, default)] on a parameter dict. *)
Definition params_get (d : gmap string pyval) (key : string) (default : pyval)
  : pyval :=
  match d !! key with
  | Some v => v
  | None => default
  end.

(** Module-level constant. *)
Definition section_length : Z := 100.

(** The attributes [__init__] sets on the instance. *)
Record DaYuanNetwork : Type := {
  use_traffic_lights : pyval;
  inner_nodes_radius : float;
  num_edges : Z;
  name : string
}.

(** [DaYuanNetwork.__init__].  The arguments [vehicles], [initial_config]
    and [traffic_lights] are only forwarded to the base class. *)
Definition __init__ (name : string) (net_params : NetParams) : DaYuanNetwork :=
  {| use_traffic_lights :=
       params_get (additional_params net_params) "traffic_lights" (VBool true);
     inner_nodes_radius := 6.2%float;
     num_edges := 8;
     name := "BobLoblawsLawBlog" |}.

(** ** Nodes *)

Record node : Type := {
  node_id : string;
  node_x : Z;
  node_y : Z;
  node_type : string;
  node_radius : option float   (* the key is absent on outer nodes *)
}.

Definition _inner_nodes (self : DaYuanNetwork) : list node :=
  let node_type :=
    if truthy (use_traffic_lights self) then "traffic_light" else "priority" in
  fold_left
    (fun nodes i =>
       nodes ++ [ {| node_id := "inner" +:+ str i;
                     node_x := (i + 1) * section_length;
                     node_y := 0;
                     node_type := node_type;
                     node_radius := Some (inner_nodes_radius self) |} ])
    (range 4) [].

Definition _outer_nodes (self : DaYuanNetwork) : list node :=
  let new_node (x y : Z) (name : string) : list node :=
    [ {| node_id := name; node_x := x; node_y := y;
         node_type := "priority"; node_radius := None |} ] in
  let nodes := [] in
  let nodes := nodes ++ new_node 0 0 "out0" in
  let nodes := nodes ++ new_node section_length section_length "out1" in
  let nodes := nodes ++ new_node (2 * section_length) section_length "out2" in
  let nodes := nodes ++ new_node (3 * section_length) section_length "out3" in
  let nodes := nodes ++ new_node (4 * section_length) section_length "out4" in
  let nodes := nodes ++ new_node (5 * section_length) 0 "out5" in
  nodes.

Definition specify_nodes (self : DaYuanNetwork) (net_params : NetParams)
  : list node :=
  _inner_nodes self ++ _outer_nodes self.

(** ** Edges *)

Record edge : Type := {
  edge_id : string;
  edge_priority : Z;
  edge_from : string;
  edge_to : string;
  edge_length : Z
}.

Definition _inner_edges (self : DaYuanNetwork) : list edge :=
  let new_edge (index from_node to_node : Z) (orientation : string) (lane : Z)
    : list edge :=
    [ {| edge_id := "inner" +:+ str index +:+ "_" +:+ str lane;
         edge_priority := 78;
         edge_from := "inner" +:+ str from_node;
         edge_to := "inner" +:+ str to_node;
         edge_length := section_length |} ] in
  fold_left
    (fun edges i =>
       let edges := edges ++ new_edge i i (i + 1) "horizontal" 0 in
       let edges := edges ++ new_edge i (i + 1) i "horizontal" 1 in
       edges)
    (range 3) [].

Definition _outer_edges (self : DaYuanNetwork) : list edge :=
  let new_edge (index : Z) (from_node to_node orientation : string) (lane : Z)
    : list edge :=
    [ {| edge_id := "out" +:+ str index +:+ "_" +:+ str lane;
         edge_priority := 78;
         edge_from := from_node;
         edge_to := to_node;
         edge_length := section_length |} ] in
  let edges := [] in
  let out_node := "out0" in
  let inner_node := "inner0" in
  let edges := edges ++ new_edge 0 out_node inner_node "horizontal" 0 in
  let edges := edges ++ new_edge 0 inner_node out_node "horizontal" 1 in
  let out_node := "out1" in
  let edges := edges ++ new_edge 1 out_node inner_node "vertical" 0 in
  let edges := edges ++ new_edge 1 inner_node out_node "vertical" 1 in
  let out_node := "out2" in
  let inner_node := "inner1" in
  let edges := edges ++ new_edge 2 out_node inner_node "vertical" 0 in
  let edges := edges ++ new_edge 2 inner_node out_node "vertical" 1 in
  let out_node := "out3" in
  let inner_node := "inner2" in
  let edges := edges ++ new_edge 3 out_node inner_node "vertical" 0 in
  let edges := edges ++ new_edge 3 inner_node out_node "vertical" 1 in
  let out_node := "out4" in
  let inner_node := "inner3" in
  let edges := edges ++ new_edge 4 out_node inner_node "vertical" 0 in
  let edges := edges ++ new_edge 4 inner_node out_node "vertical" 1 in
  let out_node := "out5" in
  let edges := edges ++ new_edge 5 out_node inner_node "horizontal" 1 in
  let edges := edges ++ new_edge 5 inner_node out_node "horizontal" 0 in
  edges.

Definition specify_edges (self : DaYuanNetwork) (net_params : NetParams)
  : list edge :=
  _inner_edges self ++ _outer_edges self.

(** ** Connections *)

Record connection : Type := {
  con_from : string;
  con_to : string;
  con_fromLane : string;
  con_toLane : string;
  con_signal_group : Z
}.

Definition specify_connections (self : DaYuanNetwork) (net_params : NetParams)
  : PyDict.t (list connection) :=
  let con_dict := PyDict.empty in
  let new_con (from_id to_id : string) (lane signal_group : Z)
    : list connection :=
    [ {| con_from := from_id;
         con_to := to_id;
         con_fromLane := str (lane - 1);
         con_toLane := str (lane - 1);
         con_signal_group := signal_group |} ] in
  let conn := [] in
  let conn := conn ++ new_con "out0_0" "out1_1" 1 1 in
  let conn := conn ++ new_con "out0_0" "inner0_0" 1 1 in
  let conn := conn ++ new_con "out1_0" "out0_1" 1 1 in
  let conn := conn ++ new_con "out1_0" "inner0_0" 1 1 in
  let conn := conn ++ new_con "inner0_1" "out0_1" 1 1 in
  let conn := conn ++ new_con "inner0_1" "out1_1" 1 1 in
  let con_dict := PyDict.setitem "inner0" conn con_dict in
  let conn := [] in
  let conn := conn ++ new_con "inner0_0" "out2_1" 1 1 in
  let conn := conn ++ new_con "inner0_0" "inner1_0" 1 1 in
  let conn := conn ++ new_con "out2_0" "inner0_1" 1 1 in
  let conn := conn ++ new_con "out2_0" "inner1_0" 1 1 in
  let conn := conn ++ new_con "inner1_1" "out2_1" 1 1 in
  let conn := conn ++ new_con "inner1_1" "inner0_1" 1 1 in
  let con_dict := PyDict.setitem "inner1" conn con_dict in
  let conn := [] in
  let conn := conn ++ new_con "inner1_0" "out3_1" 1 1 in
  let conn := conn ++ new_con "inner1_0" "inner2_0" 1 1 in
  let conn := conn ++ new_con "out3_0" "inner1_1" 1 1 in
  let conn := conn ++ new_con "out3_0" "inner2_0" 1 1 in
  let conn := conn ++ new_con "inner2_1" "out3_1" 1 1 in
  let conn := conn ++ new_con "inner2_1" "inner1_1" 1 1 in
  let con_dict := PyDict.setitem "inner2" conn con_dict in
  let conn := [] in
  let conn := conn ++ new_con "inner2_0" "out4_1" 1 1 in
  let conn := conn ++ new_con "inner2_0" "out5_0" 1 1 in
  let conn := conn ++ new_con "out4_0" "inner2_1" 1 1 in
  let conn := conn ++ new_con "out4_0" "out5_0" 1 1 in
  let conn := conn ++ new_con "out5_1" "out4_1" 1 1 in
  let conn := conn ++ new_con "out5_1" "inner2_1" 1 1 in
  let con_dict := PyDict.setitem "inner3" conn con_dict in
  con_dict.

(** ** Routes *)

(** A weighted path: the tuple [(list of edge ids, probability)]. *)
Definition weighted_path : Type := (list string * float)%type.

Definition route_table : Type := PyDict.t (list weighted_path).

Definition specify_routes (self : DaYuanNetwork) (net_params : NetParams)
  : route_table :=
  let routes : route_table := PyDict.empty in
  let routes := PyDict.setitem "out0_0" [
      (["out0_0"; "out1_1"], 0.1);
      (["out0_0"; "inner0_0"; "out2_1"], 0.1);
      (["out0_0"; "inner0_0"; "inner1_0"; "out3_1"], 0.1);
      (["out0_0"; "inner0_0"; "inner1_0"; "inner2_0"; "out4_1"], 0.3);
      (["out0_0"; "inner0_0"; "inner1_0"; "inner2_0"; "out5_0"], 0.4)
    ]%float routes in
  let routes := PyDict.setitem "out1_0" [
      (["out1_0"; "out0_1"], 0.1);
      (["out1_0"; "inner0_0"; "out2_1"], 0.1);
      (["out1_0"; "inner0_0"; "inner1_0"; "out3_1"], 0.1);
      (["out1_0"; "inner0_0"; "inner1_0"; "inner2_0"; "out4_1"], 0.3);
      (["out1_0"; "inner0_0"; "inner1_0"; "inner2_0"; "out5_0"], 0.4)
    ]%float routes in
  let routes := PyDict.setitem "out2_0" [
      (["out2_0"; "inner0_1"; "out0_1"], 0.1);
      (["out2_0"; "inner0_1"; "out1_1"], 0.1);
      (["out2_0"; "inner1_0"; "out3_1"], 0.1);
      (["out2_0"; "inner1_0"; "inner2_0"; "out4_1"], 0.3);
      (["out2_0"; "inner1_0"; "inner2_0"; "out5_0"], 0.4)
    ]%float routes in
  let routes := PyDict.setitem "out3_0" [
      (["out3_0"; "inner1_1"; "inner0_1"; "out0_1"], 0.1);
      (["out3_0"; "inner1_1"; "inner0_1"; "out1_1"], 0.1);
      (["out3_0"; "inner1_1"; "out2_1"], 0.1);
      (["out3_0"; "inner2_0"; "out4_1"], 0.3);
      (["out3_0"; "inner2_0"; "out5_0"], 0.4)
    ]%float routes in
  let routes := PyDict.setitem "out4_0" [
      (["out4_0"; "inner2_1"; "inner1_1"; "inner0_1"; "out0_1"], 0.1);
      (["out4_0"; "inner2_1"; "inner1_1"; "inner0_1"; "out1_1"], 0.1);
      (["out4_0"; "inner2_1"; "inner1_1"; "out2_1"], 0.1);
      (["out4_0"; "inner2_1"; "out3_1"], 0.3);
      (["out4_0"; "out5_0"], 0.4)
    ]%float routes in
  let routes := PyDict.setitem "out5_1" [
      (["out5_1"; "inner2_1"; "inner1_1"; "inner0_1"; "out0_1"], 0.2);
      (["out5_1"; "inner2_1"; "inner1_1"; "inner0_1"; "out1_1"], 0.2);
      (["out5_1"; "inner2_1"; "inner1_1"; "out2_1"], 0.2);
      (["out5_1"; "inner2_1"; "out3_1"], 0.2);
      (["out5_1"; "out4_1"], 0.2)
    ]%float routes in
  routes.

(** *** Outcome of a call *)

(** A call either returns a value or raises an exception, named by its
    class. *)
Inductive outcome (A : Type) : Type :=
  | Returns (a : A)
  | Raises (exc : string).
Arguments Returns {A} a.
Arguments Raises {A} exc.

(** ** The properties the collections are checked against *)

(** Sum of the probabilities of the paths of one entry edge, added from
    left to right starting at 0 as [sum(p for _, p in paths)] does. *)
Definition prob_sum (paths : list weighted_path) : float :=
  fold_left (fun acc wp => (acc + snd wp)%float) paths 0%float.

Definition tolerance : float := 1e-6%float.

(** [abs(prob_sum(paths) - 1.0) <= 1e-6]. *)
Definition sums_to_one (paths : list weighted_path) : bool :=
  (abs (prob_sum paths - 1) <=? tolerance)%float.

(** Modelled from the spec: the validation of the route weights, which is
    missing from the sources.  [specify_routes] returns its dict as built,
    and the class that receives it, [flow.networks.base.Network] (imported
    at line 3 of the file, called at line 115), is not among them.  The
    spec has it so: the probabilities "must sum to 1.0 per entry edge -
    this is validated" (4.4), "a path whose probabilities for one entry
    edge do not sum to 1 (within tolerance) fails with RouteWeightError"
    (4.4), the tolerance is 1e-6 (3), and generation fails "at the first
    detected violation" (7).  The entries are visited in dict order. *)
Fixpoint validate_route_weights (entries : list (string * list weighted_path))
  : outcome unit :=
  match entries with
  | [] => Returns tt
  | (key, paths) :: rest =>
      if sums_to_one paths
      then validate_route_weights rest
      else Raises "RouteWeightError"
  end.

(** Modelled from the spec: route construction, that is the table handed
    over once its weights are validated (spec 4.4, 7: "no partial Topology
    is ever returned"). *)
Definition construct_routes (routes : route_table) : outcome route_table :=
  match validate_route_weights (PyDict.items routes) with
  | Returns _ => Returns routes
  | Raises exc => Raises exc
  end.

(** The table with one weight changed, as
    [routes[key][i] = (routes[key][i][0], w)] leaves it; nothing changes
    when the key or the index is missing. *)
Definition set_weight (key : string) (i : nat) (w : float)
    (routes : route_table) : route_table :=
  match PyDict.get key routes with
  | Some paths =>
      match paths !! i with
      | Some wp => PyDict.setitem key (<[i := (wp.1, w)]> paths) routes
      | None => routes
      end
  | None => routes
  end.

(** The edge dict whose ["id"] is [name], the first one if there were
    several. *)
Definition edge_named (edges : list edge) (name : string) : option edge :=
  List.find (fun e => String.eqb (edge_id e) name) edges.

(** Two edge ids that follow each other in a path join at a node. *)
Definition joined (edges : list edge) (a b : string) : bool :=
  match edge_named edges a, edge_named edges b with
  | Some ea, Some eb => String.eqb (edge_to ea) (edge_from eb)
  | _, _ => false
  end.

(** Every consecutive pair of a path is joined. *)
Fixpoint contiguous (edges : list edge) (path : list string) : bool :=
  match path with
  | a :: (b :: _) as rest => joined edges a b && contiguous edges rest
  | _ => true
  end.

(** The edges that leave, respectively reach, the node [n]. *)
Definition edges_from (edges : list edge) (n : string) : list edge :=
  List.filter (fun e => String.eqb (edge_from e) n) edges.

Definition edges_to (edges : list edge) (n : string) : list edge :=
  List.filter (fun e => String.eqb (edge_to e) n) edges.

(** The edge ids that entries of the route table are keyed by. *)
Definition entry_edges : list string :=
  ["out0_0"; "out1_0"; "out2_0"; "out3_0"; "out4_0"; "out5_1"].

(** A concrete instance, as the example script builds it: no
    ["traffic_lights"] key among the additional parameters. *)
Definition example_params : NetParams :=
  {| additional_params :=
       <["speed_limit" := VInt 35]>
         (<["horizontal_lanes" := VInt 1]>
            (<["vertical_lanes" := VInt 1]> ∅)) |}.

Definition example_network : DaYuanNetwork :=
  __init__ "grid-intersection" example_params.

(** ** Start positions *)

(** [DaYuanNetwork.gen_custom_start_pos], a static method: none of its
    arguments is read. *)
Definition gen_custom_start_pos {Cls Cfg : Type} (cls : Cls)
    (net_params : NetParams) (initial_config : Cfg) (num_vehicles : Z)
  : list (string * Z) * list Z :=
  let start_pos : list (string * Z) := [] in
  let start_lanes : list Z := [] in
  let start_pos :=
    [("out0_0", 0); ("out1_0", 0); ("out2_0", 0);
     ("out3_0", 0); ("out4_0", 0); ("out5_1", 0)] in
  let start_lanes := [0; 0; 0; 0; 0; 0] in
  (start_pos, start_lanes).

(** ** The example script [examples/sumo/traffic_light_dayuan.py]

    The parameter classes of [flow.core.params] are outside these sources:
    an object of such a class is modelled by the keyword arguments the
    script builds it from, and an object that is filled by method calls
    ([InFlows.add], [TrafficLightParams.add]) by the list of these calls in
    order. *)

Module Example.

(** Keyword arguments of one [inflow.add] call. *)
Record inflow : Type := {
  inflow_veh_type : string;
  inflow_edge : string;
  inflow_probability : float;
  inflow_departLane : string;
  inflow_departSpeed : Z
}.

(** Keyword arguments of [InitialConfig]; [None] for one that is not
    passed. *)
Record InitialConfig : Type := {
  spacing : string;
  lanes_distribution : option float;
  shuffle : option bool;
  initial_additional_params : option (gmap string pyval)
}.

(** [get_flow_params].  [outer_edges[i]] raises IndexError out of range,
    which is the [None] of the result. *)
Definition get_flow_params (additional_net_params : gmap string pyval)
  : option (InitialConfig * list inflow * NetParams) :=
  let initial :=
    {| spacing := "custom";
       lanes_distribution := Some infinity;
       shuffle := Some true;
       initial_additional_params := None |} in
  let outer_edges :=
    ["out0_0"; "out1_0"; "out2_0"; "out3_0"; "out4_0"; "out5_1"] in
  let inflow :=
    fold_left
      (fun (inflow : option (list inflow)) (i : Z) =>
         match inflow, outer_edges !! Z.to_nat i with
         | Some calls, Some e =>
             Some (calls ++ [ {| inflow_veh_type := "human";
                                 inflow_edge := e;
                                 inflow_probability := 0.25;
                                 inflow_departLane := "free";
                                 inflow_departSpeed := 20 |} ])
         | _, _ => None
         end)
      (range (length outer_edges)) (Some []) in
  match inflow with
  | Some inflow =>
      Some (initial, inflow, {| additional_params := additional_net_params |})
  | None => None
  end.

(** [get_non_flow_params].  What [NetParams()] holds when built without
    arguments is decided outside these sources; it is the parameter
    [default_net_params]. *)
Definition get_non_flow_params (default_net_params : NetParams)
    (enter_speed : Z) : InitialConfig * NetParams :=
  let additional_init_params : gmap string pyval :=
    {[ "enter_speed" := VInt enter_speed ]} in
  let initial :=
    {| spacing := "custom";
       lanes_distribution := None;
       shuffle := None;
       initial_additional_params := Some additional_init_params |} in
  let net := default_net_params in
  (initial, net).

(** One phase dict of the traffic light program. *)
Record phase : Type := {
  duration : string;
  minDur : string;
  maxDur : string;
  state : string
}.

(** Arguments of one [tl_logic.add] call. *)
Record tl_add : Type := {
  tl_node : string;
  tl_phases : list phase;
  tl_programID : Z;
  tl_tls_type : option string
}.

(** What [da_yuan_example] builds before it hands everything to the
    environment: the final [sim_params.render], the number of vehicles
    added, the traffic light program, the inflows (none without inflows),
    the parameters and the network. *)
Record experiment : Type := {
  exp_render : bool;
  exp_num_vehicles : Z;
  exp_tl_logic : list tl_add;
  exp_inflows : list inflow;
  exp_initial_config : InitialConfig;
  exp_net_params : NetParams;
  exp_network : DaYuanNetwork
}.

(** [da_yuan_example(render, use_inflows)], up to the values it has built
    when it calls [DaYuanNetwork(...)]: the base-class constructor,
    [AccelEnv] and [Experiment] are outside these sources and are not
    modelled.  [None] stands for the IndexError of [get_flow_params] and
    for nothing else, so a [Some] result does not say that the Python
    function returns. *)
Definition da_yuan_example (default_net_params : NetParams)
    (render : option bool) (use_inflows : bool) : option experiment :=
  let v_enter := 10 in
  let sim_render := true in
  let sim_render :=
    match render with
    | Some r => r
    | None => sim_render
    end in
  let num_vehicles := 6 in
  let phases :=
    [ {| duration := "31"; minDur := "8"; maxDur := "45";
         state := "rrGGGG" |};
      {| duration := "6"; minDur := "3"; maxDur := "6";
         state := "rryyyy" |};
      {| duration := "31"; minDur := "8"; maxDur := "45";
         state := "GGrrrr" |};
      {| duration := "6"; minDur := "3"; maxDur := "6";
         state := "yyrrrr" |} ] in
  let tl_logic := [] in
  let tl_logic := tl_logic ++
    [ {| tl_node := "inner0"; tl_phases := phases; tl_programID := 1;
         tl_tls_type := None |} ] in
  let tl_logic := tl_logic ++
    [ {| tl_node := "inner1"; tl_phases := phases; tl_programID := 1;
         tl_tls_type := None |} ] in
  let tl_logic := tl_logic ++
    [ {| tl_node := "inner2"; tl_phases := phases; tl_programID := 1;
         tl_tls_type := Some "actuated" |} ] in
  let tl_logic := tl_logic ++
    [ {| tl_node := "inner3"; tl_phases := phases; tl_programID := 1;
         tl_tls_type := Some "actuated" |} ] in
  let additional_net_params : gmap string pyval :=
    {[ "speed_limit" := VInt 35;
       "horizontal_lanes" := VInt 1;
       "vertical_lanes" := VInt 1 ]} in
  let params :=
    if use_inflows
    then get_flow_params additional_net_params
    else
      let '(initial_config, net_params) := get_non_flow_params
                                              default_net_params v_enter in
      Some (initial_config, [], net_params) in
  match params with
  | Some (initial_config, inflows, net_params) =>
      Some {| exp_render := sim_render;
              exp_num_vehicles := num_vehicles;
              exp_tl_logic := tl_logic;
              exp_inflows := inflows;
              exp_initial_config := initial_config;
              exp_net_params := net_params;
              exp_network := __init__ "grid-intersection" net_params |}
  | None => None
  end.

End Example.

(** ** The vocabulary of the further properties *)

(** The node dict whose ["id"] is [name]. *)
Definition node_named (nodes : list node) (name : string) : option node :=
  List.find (fun n => String.eqb (node_id n) name) nodes.

(** The consecutive pairs of a path. *)
Fixpoint steps (path : list string) : list (string * string) :=
  match path with
  | a :: (b :: _) as rest => (a, b) :: steps rest
  | _ => []
  end.

(** The node a path leaves from and the node it arrives at. *)
Definition route_origin (edges : list edge) (path : list string)
  : option string :=
  match head path with
  | Some a => edge_from <$> edge_named edges a
  | None => None
  end.

Definition route_destination (edges : list edge) (path : list string)
  : option string :=
  match last path with
  | Some a => edge_to <$> edge_named edges a
  | None => None
  end.

(** The nodes a path passes, in order: its origin, then the head node of
    each of its edges. *)
Definition visited_nodes (edges : list edge) (path : list string)
  : list (option string) :=
  route_origin edges path
    :: map (fun a => edge_to <$> edge_named edges a) path.

(** The paths of [paths] that arrive at node [n]. *)
Definition paths_to (edges : list edge) (n : string)
    (paths : list weighted_path) : list weighted_path :=
  List.filter
    (fun wp => match route_destination edges wp.1 with
               | Some d => String.eqb d n
               | None => false
               end)
    paths.

(** All the connections and all the weighted paths of a dict. *)
Definition all_connections (con_dict : PyDict.t (list connection))
  : list connection :=
  flat_map snd (PyDict.items con_dict).

Definition all_paths (routes : route_table) : list weighted_path :=
  flat_map snd (PyDict.items routes).

(** Squared distance between the positions of two nodes. *)
Definition dist2 (a b : node) : Z :=
  (node_x a - node_x b) * (node_x a - node_x b)
  + (node_y a - node_y b) * (node_y a - node_y b).

(** The helper [new_edge] of [_inner_edges] and the one of [_outer_edges],
    as functions of their own.  Neither reads [orientation]: the ["type"]
    entry is commented out in the source. *)
Definition inner_new_edge (index from_node to_node : Z) (orientation : string)
    (lane : Z) : list edge :=
  [ {| edge_id := "inner" +:+ str index +:+ "_" +:+ str lane;
       edge_priority := 78;
       edge_from := "inner" +:+ str from_node;
       edge_to := "inner" +:+ str to_node;
       edge_length := section_length |} ].

Definition outer_new_edge (index : Z) (from_node to_node orientation : string)
    (lane : Z) : list edge :=
  [ {| edge_id := "out" +:+ str index +:+ "_" +:+ str lane;
       edge_priority := 78;
       edge_from := from_node;
       edge_to := to_node;
       edge_length := section_length |} ].

(** The character [c] does not occur in the string. *)
Fixpoint no_char (c : Ascii.ascii) (s : string) : bool :=
  match s with
  | EmptyString => true
  | String a s' => negb (Ascii.eqb a c) && no_char c s'
  end.

(** * Properties *)

(** ** Generic facts about dicts and lists *)

Section DictFacts.
Context {V : Type}.
Implicit Types (d : PyDict.t V) (k : string) (v : V).

Lemma PyDict_get_elem_of d k v :
  PyDict.get k d = Some v → (k, v) ∈ PyDict.items d.
Proof.
  unfold PyDict.items.
  induction d as [|[k' v'] d IH]; simpl; [discriminate|].
  destruct (String.eqb_spec k k') as [->|Hne].
  - intros [= ->]. apply list_elem_of_here.
  - intros Hget. apply list_elem_of_further, IH, Hget.
Qed.

Lemma PyDict_get_setitem_eq d k v :
  PyDict.get k (PyDict.setitem k v d) = Some v.
Proof.
  induction d as [|[k' v'] d IH]; simpl.
  - now rewrite String.eqb_refl.
  - destruct (String.eqb_spec k k') as [->|Hne]; simpl.
    + now rewrite String.eqb_refl.
    + destruct (String.eqb_spec k k'); [contradiction|exact IH].
Qed.

Lemma PyDict_get_setitem_ne d k k' v :
  k ≠ k' → PyDict.get k' (PyDict.setitem k v d) = PyDict.get k' d.
Proof.
  intros Hne.
  induction d as [|[k0 v0] d IH]; simpl.
  - destruct (String.eqb_spec k' k); [congruence|reflexivity].
  - destruct (String.eqb_spec k k0) as [->|Hk]; simpl.
    + destruct (String.eqb_spec k' k0); [congruence|reflexivity].
    + destruct (String.eqb_spec k' k0); [reflexivity|exact IH].
Qed.
End DictFacts.

(** Elements of a list whose images under [f] are pairwise distinct are
    identified by their image. *)
Lemma NoDup_fmap_elem_inj {A B : Type} (f : A → B) (l : list A) (x y : A) :
  NoDup (map f l) → x ∈ l → y ∈ l → f x = f y → x = y.
Proof.
  induction l as [|z l IH]; simpl; intros Hnd Hx Hy Hf.
  - inversion Hx.
  - apply NoDup_cons in Hnd as [Hz Hnd].
    apply elem_of_cons in Hx as [->|Hx];
      apply elem_of_cons in Hy as [->|Hy]; auto.
    + exfalso. apply Hz. rewrite Hf.
      apply list_elem_of_In, in_map, list_elem_of_In, Hy.
    + exfalso. apply Hz. rewrite <- Hf.
      apply list_elem_of_In, in_map, list_elem_of_In, Hx.
Qed.

(** ** The collections, spelled out *)

Lemma inner_nodes_unfold (self : DaYuanNetwork) :
  _inner_nodes self =
  let node_type :=
    if truthy (use_traffic_lights self) then "traffic_light" else "priority" in
  let mk (i : Z) :=
    {| node_id := "inner" +:+ str i; node_x := (i + 1) * 100; node_y := 0;
       node_type := node_type;
       node_radius := Some (inner_nodes_radius self) |} in
  [mk 0; mk 1; mk 2; mk 3].
Proof. reflexivity. Qed.

Lemma node_ids (self : DaYuanNetwork) (np : NetParams) :
  map node_id (specify_nodes self np) =
  ["inner0"; "inner1"; "inner2"; "inner3";
   "out0"; "out1"; "out2"; "out3"; "out4"; "out5"].
Proof. reflexivity. Qed.

Lemma edge_ids (self : DaYuanNetwork) (np : NetParams) :
  map edge_id (specify_edges self np) =
  ["inner0_0"; "inner0_1"; "inner1_0"; "inner1_1"; "inner2_0"; "inner2_1";
   "out0_0"; "out0_1"; "out1_0"; "out1_1"; "out2_0"; "out2_1";
   "out3_0"; "out3_1"; "out4_0"; "out4_1"; "out5_1"; "out5_0"].
Proof. reflexivity. Qed.

Lemma node_ids_unique (self : DaYuanNetwork) (np : NetParams) :
  NoDup (map node_id (specify_nodes self np)).
Proof. rewrite node_ids. apply (bool_decide_unpack _). vm_compute. exact I. Qed.

Lemma edge_ids_unique (self : DaYuanNetwork) (np : NetParams) :
  NoDup (map edge_id (specify_edges self np)).
Proof. rewrite edge_ids. apply (bool_decide_unpack _). vm_compute. exact I. Qed.

Lemma route_keys (self : DaYuanNetwork) (np : NetParams) :
  PyDict.keys (specify_routes self np) = entry_edges.
Proof. reflexivity. Qed.

Lemma connection_keys (self : DaYuanNetwork) (np : NetParams) :
  PyDict.keys (specify_connections self np) = map node_id (_inner_nodes self).
Proof. reflexivity. Qed.

(** ** Counting nodes and edges *)

(** C5. The network has exactly 4 interior and 6 boundary nodes;
    [specify_edges] returns 18 edges, the 6 inner ones (one per direction
    for each of the 3 adjacent pairs of interior nodes) followed by the 12
    outer ones (one leaving and one reaching each of the 6 boundary
    nodes). *)
Theorem node_and_edge_counts (self : DaYuanNetwork) (np : NetParams) :
  length (_inner_nodes self) = 4%nat ∧
  length (_outer_nodes self) = 6%nat ∧
  length (specify_nodes self np) = 10%nat ∧
  length (_inner_edges self) = 6%nat ∧
  length (_outer_edges self) = 12%nat ∧
  length (specify_edges self np) = 18%nat ∧
  specify_edges self np = _inner_edges self ++ _outer_edges self ∧
  map (fun e => (edge_from e, edge_to e)) (_inner_edges self) =
    [("inner0", "inner1"); ("inner1", "inner0");
     ("inner1", "inner2"); ("inner2", "inner1");
     ("inner2", "inner3"); ("inner3", "inner2")] ∧
  Forall (fun o =>
            length (edges_from (_outer_edges self) (node_id o)) = 1%nat ∧
            length (edges_to (_outer_edges self) (node_id o)) = 1%nat)
         (_outer_nodes self).
Proof.
  repeat match goal with |- _ ∧ _ => split end; try reflexivity.
  apply (bool_decide_unpack _). vm_compute. exact I.
Qed.

(** C10. [__init__] always stores 8 in [num_edges], while [specify_edges]
    always returns 18 edges, so the attribute differs from the number of
    edges produced. *)
Theorem num_edges_differs_from_edge_count (name : string) (np : NetParams) :
  let self := __init__ name np in
  num_edges self = 8 ∧
  length (specify_edges self np) = 18%nat ∧
  (num_edges self =? Z.of_nat (length (specify_edges self np))) = false.
Proof. intros self. repeat split. Qed.

(** ** Interior nodes *)

(** C6. For every [i] in 0..3 the i-th interior node has id ["inner"]
    followed by [i], sits at x = (i+1)*100, y = 0, carries the fixed radius
    6.2, and its type is the same for all four nodes: ["traffic_light"]
    when the ["traffic_lights"] parameter is true, ["priority"] when it is
    false. *)
Theorem inner_nodes_layout (name : string) (np : NetParams) (i : nat) :
  (i < 4)%nat →
  let self := __init__ name np in
  let flag := params_get (additional_params np) "traffic_lights" (VBool true) in
  ∃ nd : node,
    _inner_nodes self !! i = Some nd ∧
    node_id nd = "inner" +:+ str (Z.of_nat i) ∧
    node_x nd = (Z.of_nat i + 1) * 100 ∧
    node_y nd = 0 ∧
    node_radius nd = Some 6.2%float ∧
    node_type nd = (if truthy flag then "traffic_light" else "priority") ∧
    (∀ b : bool, flag = VBool b →
       node_type nd = if b then "traffic_light" else "priority").
Proof.
  intros Hi self flag.
  rewrite inner_nodes_unfold.
  assert (Hty : ∀ b : bool, flag = VBool b →
            (if truthy flag then "traffic_light" else "priority")
            = if b then "traffic_light" else "priority")
    by (intros b ->; reflexivity).
  destruct i as [|[|[|[|i]]]]; [| | | |lia];
    (eexists; split; [reflexivity|]; repeat split; exact Hty).
Qed.

Lemma inner_nodes_layout_witness :
  (2 < 4)%nat ∧
  ∃ nd : node,
    _inner_nodes example_network !! 2%nat = Some nd ∧
    node_id nd = "inner2" ∧ node_x nd = 300 ∧ node_y nd = 0 ∧
    node_radius nd = Some 6.2%float ∧ node_type nd = "traffic_light".
Proof.
  split; [lia|].
  destruct (inner_nodes_layout "grid-intersection" example_params 2 ltac:(lia))
    as (nd & Hnd & Hid & Hx & Hy & Hr & Hty & _).
  exists nd. repeat split; assumption.
Defined.

(** ** Referential integrity *)

(** C3. Both end points of every edge returned by [specify_edges] are ids
    of nodes returned by [specify_nodes]. *)
Theorem edge_endpoints_are_nodes (self : DaYuanNetwork) (np : NetParams)
    (e : edge) :
  e ∈ specify_edges self np →
  edge_from e ∈ map node_id (specify_nodes self np) ∧
  edge_to e ∈ map node_id (specify_nodes self np).
Proof.
  revert e. apply Forall_forall.
  rewrite node_ids.
  apply (bool_decide_unpack _). vm_compute. exact I.
Qed.

Lemma edge_endpoints_are_nodes_witness :
  let e := {| edge_id := "out5_1"; edge_priority := 78; edge_from := "out5";
              edge_to := "inner3"; edge_length := 100 |} in
  e ∈ specify_edges example_network example_params ∧
  edge_from e ∈ map node_id (specify_nodes example_network example_params) ∧
  edge_to e ∈ map node_id (specify_nodes example_network example_params).
Proof.
  intros e.
  assert (He : e ∈ specify_edges example_network example_params).
  { apply (list_elem_of_lookup_2 _ 16%nat). reflexivity. }
  split; [exact He|].
  apply (edge_endpoints_are_nodes example_network example_params e He).
Defined.

(** C4. Under every key of the dict returned by [specify_connections],
    which is the id of an interior node, both edge ids of every connection
    are ids of edges returned by [specify_edges]. *)
Theorem connection_edges_exist (self : DaYuanNetwork) (np : NetParams)
    (key : string) (conns : list connection) (c : connection) :
  PyDict.get key (specify_connections self np) = Some conns →
  c ∈ conns →
  key ∈ map node_id (_inner_nodes self) ∧
  con_from c ∈ map edge_id (specify_edges self np) ∧
  con_to c ∈ map edge_id (specify_edges self np).
Proof.
  intros Hget Hc.
  apply PyDict_get_elem_of in Hget.
  assert (HF : Forall (fun kv : string * list connection =>
             kv.1 ∈ ["inner0"; "inner1"; "inner2"; "inner3"] ∧
             Forall (fun c => con_from c ∈ map edge_id (specify_edges self np) ∧
                              con_to c ∈ map edge_id (specify_edges self np))
                    kv.2)
            (PyDict.items (specify_connections self np))).
  { rewrite edge_ids. apply (bool_decide_unpack _). vm_compute. exact I. }
  rewrite Forall_forall in HF.
  destruct (HF _ Hget) as [Hkey Hconns]; simpl in *.
  rewrite Forall_forall in Hconns.
  split; [exact Hkey|]. apply Hconns, Hc.
Qed.

Lemma connection_edges_exist_witness :
  let conns :=
    [ {| con_from := "inner2_0"; con_to := "out4_1"; con_fromLane := "0";
         con_toLane := "0"; con_signal_group := 1 |};
      {| con_from := "inner2_0"; con_to := "out5_0"; con_fromLane := "0";
         con_toLane := "0"; con_signal_group := 1 |};
      {| con_from := "out4_0"; con_to := "inner2_1"; con_fromLane := "0";
         con_toLane := "0"; con_signal_group := 1 |};
      {| con_from := "out4_0"; con_to := "out5_0"; con_fromLane := "0";
         con_toLane := "0"; con_signal_group := 1 |};
      {| con_from := "out5_1"; con_to := "out4_1"; con_fromLane := "0";
         con_toLane := "0"; con_signal_group := 1 |};
      {| con_from := "out5_1"; con_to := "inner2_1"; con_fromLane := "0";
         con_toLane := "0"; con_signal_group := 1 |} ] in
  let c := {| con_from := "out4_0"; con_to := "inner2_1"; con_fromLane := "0";
              con_toLane := "0"; con_signal_group := 1 |} in
  PyDict.get "inner3" (specify_connections example_network example_params)
    = Some conns ∧
  c ∈ conns ∧
  "inner3" ∈ map node_id (_inner_nodes example_network) ∧
  "out4_0" ∈ map edge_id (specify_edges example_network example_params) ∧
  "inner2_1" ∈ map edge_id (specify_edges example_network example_params).
Proof.
  intros conns c.
  assert (Hget : PyDict.get "inner3"
                   (specify_connections example_network example_params)
                 = Some conns) by reflexivity.
  assert (Hc : c ∈ conns)
    by (apply (list_elem_of_lookup_2 _ 2%nat); reflexivity).
  split; [exact Hget|]. split; [exact Hc|].
  exact (connection_edges_exist example_network example_params
           "inner3" conns c Hget Hc).
Defined.

(** ** Routes *)

(** What the boolean test [joined] establishes. *)
Lemma joined_sound (edges : list edge) (a b : string) :
  joined edges a b = true →
  ∃ ea eb : edge,
    ea ∈ edges ∧ eb ∈ edges ∧
    edge_id ea = a ∧ edge_id eb = b ∧ edge_to ea = edge_from eb.
Proof.
  unfold joined, edge_named.
  destruct (List.find _ edges) as [ea|] eqn:Ha; [|discriminate].
  destruct (List.find (fun e => String.eqb (edge_id e) b) edges) as [eb|] eqn:Hb;
    [|discriminate].
  intros Hj.
  apply find_some in Ha as [Ha1 Ha2], Hb as [Hb1 Hb2].
  exists ea, eb.
  rewrite !list_elem_of_In.
  repeat split; auto; now apply String.eqb_eq.
Qed.

(** What the boolean test [contiguous] establishes, by induction on the
    path. *)
Lemma contiguous_sound (edges : list edge) (path : list string) :
  contiguous edges path = true →
  ∀ (k : nat) (a b : string),
    path !! k = Some a → path !! S k = Some b → joined edges a b = true.
Proof.
  induction path as [|x [|y rest] IH]; intros Hc k a b Ha Hb.
  - discriminate.
  - destruct k; discriminate.
  - simpl in Hc. apply andb_true_iff in Hc as [Hxy Hrest].
    destruct k as [|k].
    + simpl in Ha, Hb. congruence.
    + apply (IH Hrest k); assumption.
Qed.

(** Every entry of the route table, checked once: its key is an entry
    edge, its probabilities sum to one, and each of its paths starts at
    the key and is contiguous. *)
Lemma route_entries_checked (self : DaYuanNetwork) (np : NetParams) :
  Forall (fun kv : string * list weighted_path =>
            kv.1 ∈ entry_edges ∧
            sums_to_one kv.2 = true ∧
            Forall (fun wp : weighted_path =>
                      head wp.1 = Some kv.1 ∧
                      contiguous (specify_edges self np) wp.1 = true)
                   kv.2)
         (PyDict.items (specify_routes self np)).
Proof.
  unfold PyDict.items, specify_routes; simpl.
  repeat
    (apply Forall_cons; split;
     [ split; [unfold entry_edges; set_solver|];
       split; [reflexivity|];
       repeat (apply Forall_cons; split; [split; reflexivity|]);
       constructor
     | ]).
  constructor.
Qed.

Lemma route_entry_checked (self : DaYuanNetwork) (np : NetParams)
    (key : string) (paths : list weighted_path) :
  PyDict.get key (specify_routes self np) = Some paths →
  key ∈ entry_edges ∧
  sums_to_one paths = true ∧
  ∀ wp : weighted_path, wp ∈ paths →
    head wp.1 = Some key ∧ contiguous (specify_edges self np) wp.1 = true.
Proof.
  intros Hget%PyDict_get_elem_of.
  pose proof (route_entries_checked self np) as HF.
  rewrite Forall_forall in HF.
  destruct (HF _ Hget) as (Hk & Hs & Hp); simpl in *.
  rewrite Forall_forall in Hp. auto.
Qed.

(** C1. Under every key of the dict returned by [specify_routes] (one of
    out0_0, out1_0, out2_0, out3_0, out4_0, out5_1) the probabilities of the
    weighted paths sum to 1.0 within 1e-6. *)
Theorem route_probabilities_sum_to_one (self : DaYuanNetwork) (np : NetParams)
    (key : string) (paths : list weighted_path) :
  PyDict.get key (specify_routes self np) = Some paths →
  key ∈ entry_edges ∧
  (abs (prob_sum paths - 1) <=? 1e-6)%float = true.
Proof.
  intros Hget.
  destruct (route_entry_checked self np key paths Hget) as (Hk & Hs & _).
  split; [exact Hk|exact Hs].
Qed.

Lemma route_probabilities_sum_to_one_witness :
  let paths :=
    [ (["out5_1"; "inner2_1"; "inner1_1"; "inner0_1"; "out0_1"], 0.2);
      (["out5_1"; "inner2_1"; "inner1_1"; "inner0_1"; "out1_1"], 0.2);
      (["out5_1"; "inner2_1"; "inner1_1"; "out2_1"], 0.2);
      (["out5_1"; "inner2_1"; "out3_1"], 0.2);
      (["out5_1"; "out4_1"], 0.2) ]%float in
  PyDict.get "out5_1" (specify_routes example_network example_params)
    = Some paths ∧
  "out5_1" ∈ entry_edges ∧
  (abs (prob_sum paths - 1) <=? 1e-6)%float = true.
Proof.
  intros paths.
  assert (Hget : PyDict.get "out5_1"
                   (specify_routes example_network example_params)
                 = Some paths) by reflexivity.
  split; [exact Hget|].
  exact (route_probabilities_sum_to_one example_network example_params
           "out5_1" paths Hget).
Defined.

(** C9. Every weighted path stored under a key of the dict returned by
    [specify_routes] has that key as its first edge id. *)
Theorem routes_start_at_their_key (self : DaYuanNetwork) (np : NetParams)
    (key : string) (paths : list weighted_path) (wp : weighted_path) :
  PyDict.get key (specify_routes self np) = Some paths →
  wp ∈ paths →
  wp.1 !! 0%nat = Some key.
Proof.
  intros Hget Hwp.
  destruct (route_entry_checked self np key paths Hget) as (_ & _ & Hp).
  destruct (Hp wp Hwp) as [Hhead _].
  destruct wp as [[|e path] p]; simpl in *; [discriminate|exact Hhead].
Qed.

Lemma routes_start_at_their_key_witness :
  let paths :=
    [ (["out3_0"; "inner1_1"; "inner0_1"; "out0_1"], 0.1);
      (["out3_0"; "inner1_1"; "inner0_1"; "out1_1"], 0.1);
      (["out3_0"; "inner1_1"; "out2_1"], 0.1);
      (["out3_0"; "inner2_0"; "out4_1"], 0.3);
      (["out3_0"; "inner2_0"; "out5_0"], 0.4) ]%float in
  let wp := (["out3_0"; "inner2_0"; "out4_1"], 0.3%float) in
  PyDict.get "out3_0" (specify_routes example_network example_params)
    = Some paths ∧
  wp ∈ paths ∧
  wp.1 !! 0%nat = Some "out3_0".
Proof.
  intros paths wp.
  assert (Hget : PyDict.get "out3_0"
                   (specify_routes example_network example_params)
                 = Some paths) by reflexivity.
  assert (Hwp : wp ∈ paths)
    by (apply (list_elem_of_lookup_2 _ 3%nat); reflexivity).
  split; [exact Hget|]. split; [exact Hwp|].
  exact (routes_start_at_their_key example_network example_params
           "out3_0" paths wp Hget Hwp).
Defined.

(** C2. In every weighted path of the dict returned by [specify_routes],
    for every two consecutive edge ids [a], [b], the edge named [a] ends at
    the node where the edge named [b] starts; both edges are among those of
    [specify_edges] and are the only ones with these ids. *)
Theorem route_paths_are_contiguous (self : DaYuanNetwork) (np : NetParams)
    (key : string) (paths : list weighted_path) (wp : weighted_path)
    (k : nat) (a b : string) :
  PyDict.get key (specify_routes self np) = Some paths →
  wp ∈ paths →
  wp.1 !! k = Some a →
  wp.1 !! S k = Some b →
  ∃ ea eb : edge,
    edge_named (specify_edges self np) a = Some ea ∧
    edge_named (specify_edges self np) b = Some eb ∧
    edge_to ea = edge_from eb ∧
    (∀ e : edge, e ∈ specify_edges self np → edge_id e = a → e = ea) ∧
    (∀ e : edge, e ∈ specify_edges self np → edge_id e = b → e = eb).
Proof.
  intros Hget Hwp Ha Hb.
  destruct (route_entry_checked self np key paths Hget) as (_ & _ & Hp).
  destruct (Hp wp Hwp) as [_ Hc].
  pose proof (contiguous_sound _ _ Hc k a b Ha Hb) as Hj.
  destruct (joined_sound _ _ _ Hj) as (ea & eb & Hea & Heb & Hida & Hidb & Hto).
  pose proof (edge_ids_unique self np) as Hnd.
  assert (Huniq : ∀ e0 e : edge, e0 ∈ specify_edges self np →
            e ∈ specify_edges self np → edge_id e = edge_id e0 → e = e0).
  { intros e0 e He0 He Hid.
    exact (NoDup_fmap_elem_inj edge_id _ e e0 Hnd He He0 Hid). }
  unfold joined in Hj.
  destruct (edge_named (specify_edges self np) a) as [ea'|] eqn:Hna;
    [|discriminate].
  destruct (edge_named (specify_edges self np) b) as [eb'|] eqn:Hnb;
    [|discriminate].
  unfold edge_named in Hna, Hnb.
  apply find_some in Hna as [Hina Heqa], Hnb as [Hinb Heqb].
  apply list_elem_of_In in Hina, Hinb.
  apply String.eqb_eq in Heqa, Heqb, Hj.
  exists ea', eb'. repeat split; auto.
  - intros e He Hid. apply Huniq; congruence.
  - intros e He Hid. apply Huniq; congruence.
Qed.

Lemma route_paths_are_contiguous_witness :
  let paths :=
    [ (["out2_0"; "inner0_1"; "out0_1"], 0.1);
      (["out2_0"; "inner0_1"; "out1_1"], 0.1);
      (["out2_0"; "inner1_0"; "out3_1"], 0.1);
      (["out2_0"; "inner1_0"; "inner2_0"; "out4_1"], 0.3);
      (["out2_0"; "inner1_0"; "inner2_0"; "out5_0"], 0.4) ]%float in
  let wp := (["out2_0"; "inner1_0"; "inner2_0"; "out5_0"], 0.4%float) in
  PyDict.get "out2_0" (specify_routes example_network example_params)
    = Some paths ∧
  wp ∈ paths ∧
  wp.1 !! 2%nat = Some "inner2_0" ∧
  wp.1 !! 3%nat = Some "out5_0" ∧
  ∃ ea eb : edge,
    edge_named (specify_edges example_network example_params) "inner2_0"
      = Some ea ∧
    edge_named (specify_edges example_network example_params) "out5_0"
      = Some eb ∧
    edge_to ea = edge_from eb.
Proof.
  intros paths wp.
  assert (Hget : PyDict.get "out2_0"
                   (specify_routes example_network example_params)
                 = Some paths) by reflexivity.
  assert (Hwp : wp ∈ paths)
    by (apply (list_elem_of_lookup_2 _ 4%nat); reflexivity).
  split; [exact Hget|]. split; [exact Hwp|].
  split; [reflexivity|]. split; [reflexivity|].
  destruct (route_paths_are_contiguous example_network example_params
              "out2_0" paths wp 2 "inner2_0" "out5_0" Hget Hwp
              eq_refl eq_refl)
    as (ea & eb & Ha & Hb & Hto & _).
  exists ea, eb. auto.
Defined.

(** ** Validation of the route weights *)

(** One entry whose probabilities do not sum to one stops the
    validation, wherever it stands in the table. *)
Lemma validate_route_weights_rejects
    (entries : list (string * list weighted_path)) (key : string)
    (paths : list weighted_path) :
  (key, paths) ∈ entries →
  sums_to_one paths = false →
  validate_route_weights entries = Raises "RouteWeightError".
Proof.
  induction entries as [|[key' paths'] entries IH]; intros Hin Hsum.
  - inversion Hin.
  - simpl. apply elem_of_cons in Hin as [[= <- <-]|Hin].
    + now rewrite Hsum.
    + destruct (sums_to_one paths'); [now apply IH|reflexivity].
Qed.

(** The validation passes exactly when every entry sums to one. *)
Lemma validate_route_weights_accepts
    (entries : list (string * list weighted_path)) :
  validate_route_weights entries = Returns tt ↔
  Forall (fun kv : string * list weighted_path => sums_to_one kv.2 = true)
         entries.
Proof.
  induction entries as [|[key paths] entries IH]; simpl.
  - split; [constructor|reflexivity].
  - rewrite Forall_cons; simpl.
    destruct (sums_to_one paths).
    + rewrite IH. tauto.
    + split; [discriminate|intros [[=] _]].
Qed.



(** ** What the collections depend on *)

(** The four collections depend on the parameters only through the truth
    value of the ["traffic_lights"] entry. *)
Lemma collections_depend_on_flag_only (self1 self2 : DaYuanNetwork)
    (np1 np2 : NetParams) :
  truthy (use_traffic_lights self1) = truthy (use_traffic_lights self2) →
  inner_nodes_radius self1 = inner_nodes_radius self2 →
  specify_nodes self1 np1 = specify_nodes self2 np2 ∧
  specify_edges self1 np1 = specify_edges self2 np2 ∧
  specify_connections self1 np1 = specify_connections self2 np2 ∧
  specify_routes self1 np1 = specify_routes self2 np2.
Proof.
  intros Hflag Hradius.
  repeat split; try reflexivity.
  unfold specify_nodes. rewrite !inner_nodes_unfold; simpl.
  rewrite Hflag, Hradius. reflexivity.
Qed.

(** * Further properties of the network *)

(** ** Lists, paths and dicts *)

Lemma map_lookup {A B : Type} (f : A → B) (l : list A) (i : nat) :
  map f l !! i = f <$> l !! i.
Proof.
  revert i. induction l as [|x l IH]; intros [|i]; simpl; auto.
Qed.

(** Positions of a list whose images under [f] are pairwise distinct are
    identified by the image. *)
Lemma NoDup_map_lookup_inj {A B : Type} (f : A → B) (l : list A)
    (i j : nat) (x y : A) :
  NoDup (map f l) → l !! i = Some x → l !! j = Some y → f x = f y → i = j.
Proof.
  intros Hnd Hi Hj Hf.
  apply (NoDup_lookup (map f l) i j (f x)); [exact Hnd| |].
  - rewrite map_lookup, Hi. reflexivity.
  - rewrite map_lookup, Hj, Hf. reflexivity.
Qed.

Lemma steps_lookup (path : list string) (k : nat) (a b : string) :
  path !! k = Some a → path !! S k = Some b → (a, b) ∈ steps path.
Proof.
  revert k. induction path as [|x [|y rest] IH]; intros k Ha Hb.
  - discriminate.
  - destruct k; discriminate.
  - destruct k as [|k].
    + simpl in Ha, Hb. injection Ha as ->. injection Hb as ->.
      apply list_elem_of_here.
    + apply list_elem_of_further. apply (IH k); assumption.
Qed.

Lemma steps_inv (path : list string) (a b : string) :
  (a, b) ∈ steps path →
  ∃ k : nat, path !! k = Some a ∧ path !! S k = Some b.
Proof.
  induction path as [|x [|y rest] IH]; intros Hin.
  - inversion Hin.
  - inversion Hin.
  - change (steps (x :: y :: rest)) with ((x, y) :: steps (y :: rest)) in Hin.
    apply elem_of_cons in Hin as [[= -> ->]|Hin].
    + exists 0%nat. split; reflexivity.
    + destruct (IH Hin) as (k & Hk1 & Hk2). exists (S k). split; assumption.
Qed.

(** A value listed under a key of a dict of lists is among all the values
    of the dict. *)
Lemma PyDict_flat_elem {V : Type} (d : PyDict.t (list V)) (k : string)
    (l : list V) (x : V) :
  PyDict.get k d = Some l → x ∈ l → x ∈ flat_map snd (PyDict.items d).
Proof.
  intros Hget%PyDict_get_elem_of Hx.
  apply list_elem_of_In, in_flat_map.
  exists (k, l). split; apply list_elem_of_In; assumption.
Qed.

(** ** Nodes and edges *)

(** X1. No two node dicts returned by [specify_nodes] share an id. *)
Theorem node_ids_are_pairwise_distinct (self : DaYuanNetwork)
    (np : NetParams) (i j : nat) (a b : node) :
  specify_nodes self np !! i = Some a →
  specify_nodes self np !! j = Some b →
  node_id a = node_id b →
  i = j.
Proof.
  apply NoDup_map_lookup_inj, node_ids_unique.
Qed.

Lemma node_ids_are_pairwise_distinct_witness :
  ∃ a : node,
    specify_nodes example_network example_params !! 5%nat = Some a ∧
    node_id a = "out1" ∧ 5%nat = 5%nat.
Proof.
  eexists. split; [reflexivity|]. split; [reflexivity|].
  exact (node_ids_are_pairwise_distinct example_network example_params
           5 5 _ _ eq_refl eq_refl eq_refl).
Defined.

(** X2. No two edge dicts returned by [specify_edges] share an id. *)
Theorem edge_ids_are_pairwise_distinct (self : DaYuanNetwork)
    (np : NetParams) (i j : nat) (a b : edge) :
  specify_edges self np !! i = Some a →
  specify_edges self np !! j = Some b →
  edge_id a = edge_id b →
  i = j.
Proof.
  apply NoDup_map_lookup_inj, edge_ids_unique.
Qed.

Lemma edge_ids_are_pairwise_distinct_witness :
  ∃ a : edge,
    specify_edges example_network example_params !! 17%nat = Some a ∧
    edge_id a = "out5_0" ∧ 17%nat = 17%nat.
Proof.
  eexists. split; [reflexivity|]. split; [reflexivity|].
  exact (edge_ids_are_pairwise_distinct example_network example_params
           17 17 _ _ eq_refl eq_refl eq_refl).
Defined.

(** X3. The network is two-way and has no loops: every edge joins two
    different nodes, and the edge in the opposite direction exists. *)
Theorem every_edge_has_a_reverse (self : DaYuanNetwork) (np : NetParams)
    (e : edge) :
  e ∈ specify_edges self np →
  edge_from e ≠ edge_to e ∧
  ∃ e' : edge,
    e' ∈ specify_edges self np ∧
    edge_from e' = edge_to e ∧ edge_to e' = edge_from e.
Proof.
  revert e. apply Forall_forall.
  eapply Forall_impl.
  - assert (H : Forall (fun e => edge_from e ≠ edge_to e ∧
                 Exists (fun e' => edge_from e' = edge_to e ∧
                                   edge_to e' = edge_from e)
                        (specify_edges self np))
              (specify_edges self np))
      by (apply (bool_decide_unpack _); vm_compute; exact I).
    exact H.
  - intros e [Hne Hex]. split; [exact Hne|].
    apply Exists_exists in Hex as (e' & He' & Hft). exists e'. tauto.
Qed.

Lemma every_edge_has_a_reverse_witness :
  let e := {| edge_id := "out1_0"; edge_priority := 78; edge_from := "out1";
              edge_to := "inner0"; edge_length := 100 |} in
  e ∈ specify_edges example_network example_params ∧
  ∃ e' : edge,
    e' ∈ specify_edges example_network example_params ∧
    edge_from e' = "inner0" ∧ edge_to e' = "out1".
Proof.
  intros e.
  assert (He : e ∈ specify_edges example_network example_params)
    by (apply (list_elem_of_lookup_2 _ 8%nat); reflexivity).
  split; [exact He|].
  exact (proj2 (every_edge_has_a_reverse example_network example_params e He)).
Defined.

(** X4. No two edges join the same ordered pair of nodes. *)
Theorem no_parallel_edges (self : DaYuanNetwork) (np : NetParams)
    (e1 e2 : edge) :
  e1 ∈ specify_edges self np →
  e2 ∈ specify_edges self np →
  edge_from e1 = edge_from e2 →
  edge_to e1 = edge_to e2 →
  e1 = e2.
Proof.
  intros H1 H2 Hf Ht.
  apply (NoDup_fmap_elem_inj (fun e => (edge_from e, edge_to e))
           (specify_edges self np)); [|assumption|assumption|congruence].
  apply (bool_decide_unpack _). vm_compute. exact I.
Qed.

Lemma no_parallel_edges_witness :
  let e := {| edge_id := "inner1_1"; edge_priority := 78;
              edge_from := "inner2"; edge_to := "inner1";
              edge_length := 100 |} in
  e ∈ specify_edges example_network example_params ∧ e = e.
Proof.
  intros e.
  assert (He : e ∈ specify_edges example_network example_params)
    by (apply (list_elem_of_lookup_2 _ 3%nat); reflexivity).
  split; [exact He|].
  exact (no_parallel_edges example_network example_params e e He He
           eq_refl eq_refl).
Defined.

(** X5. The declared length of every edge is the distance between the
    positions of its two end nodes, and it is positive. *)
Theorem edge_length_is_node_distance (self : DaYuanNetwork) (np : NetParams)
    (e : edge) :
  e ∈ specify_edges self np →
  ∃ a b : node,
    node_named (specify_nodes self np) (edge_from e) = Some a ∧
    node_named (specify_nodes self np) (edge_to e) = Some b ∧
    dist2 a b = edge_length e * edge_length e ∧
    0 < edge_length e.
Proof.
  revert e. apply Forall_forall.
  eapply Forall_impl.
  - assert (H : Forall
        (fun e =>
           match node_named (specify_nodes self np) (edge_from e),
                 node_named (specify_nodes self np) (edge_to e) with
           | Some a, Some b =>
               (dist2 a b =? edge_length e * edge_length e)
               && (0 <? edge_length e)
           | _, _ => false
           end = true)
        (specify_edges self np))
      by (apply (bool_decide_unpack _); vm_compute; exact I).
    exact H.
  - intros e He. cbv beta in He.
    destruct (node_named _ (edge_from e)) as [a|]; [|discriminate].
    destruct (node_named _ (edge_to e)) as [b|]; [|discriminate].
    apply andb_true_iff in He as [Hd Hl].
    apply Z.eqb_eq in Hd. apply Z.ltb_lt in Hl.
    exists a, b. split; [reflexivity|]. split; [reflexivity|].
    split; [exact Hd|exact Hl].
Qed.

Lemma edge_length_is_node_distance_witness :
  let e := {| edge_id := "out4_1"; edge_priority := 78; edge_from := "inner3";
              edge_to := "out4"; edge_length := 100 |} in
  e ∈ specify_edges example_network example_params ∧
  ∃ a b : node,
    node_named (specify_nodes example_network example_params) "inner3"
      = Some a ∧
    node_named (specify_nodes example_network example_params) "out4"
      = Some b ∧
    dist2 a b = 10000.
Proof.
  intros e.
  assert (He : e ∈ specify_edges example_network example_params)
    by (apply (list_elem_of_lookup_2 _ 15%nat); reflexivity).
  split; [exact He|].
  destruct (edge_length_is_node_distance example_network example_params e He)
    as (a & b & Ha & Hb & Hd & _).
  exists a, b. auto.
Defined.

(** ** Connections *)

(** X6. A connection listed under a node crosses that node: its "from"
    edge arrives at the node, its "to" edge leaves from it, and the
    movement does not turn back to the node the "from" edge came from. *)
Theorem connections_cross_their_node (self : DaYuanNetwork) (np : NetParams)
    (key : string) (conns : list connection) (c : connection) :
  PyDict.get key (specify_connections self np) = Some conns →
  c ∈ conns →
  ∃ ea eb : edge,
    edge_named (specify_edges self np) (con_from c) = Some ea ∧
    edge_named (specify_edges self np) (con_to c) = Some eb ∧
    edge_to ea = key ∧ edge_from eb = key ∧
    edge_from ea ≠ edge_to eb.
Proof.
  intros Hget%PyDict_get_elem_of Hc.
  assert (H : Forall (fun kv : string * list connection =>
      Forall (fun c =>
        match edge_named (specify_edges self np) (con_from c),
              edge_named (specify_edges self np) (con_to c) with
        | Some ea, Some eb =>
            String.eqb (edge_to ea) kv.1 && String.eqb (edge_from eb) kv.1
            && negb (String.eqb (edge_from ea) (edge_to eb))
        | _, _ => false
        end = true) kv.2)
      (PyDict.items (specify_connections self np)))
    by (apply (bool_decide_unpack _); vm_compute; exact I).
  rewrite Forall_forall in H. specialize (H _ Hget). cbv beta in H.
  rewrite Forall_forall in H. specialize (H _ Hc).
  cbn beta iota delta [fst snd] in H.
  destruct (edge_named _ (con_from c)) as [ea|]; [|discriminate].
  destruct (edge_named _ (con_to c)) as [eb|]; [|discriminate].
  apply andb_true_iff in H as [[H1 H2]%andb_true_iff H3].
  apply String.eqb_eq in H1, H2.
  apply negb_true_iff, String.eqb_neq in H3.
  exists ea, eb. auto.
Qed.

Lemma connections_cross_their_node_witness :
  ∃ (conns : list connection) (c : connection),
    PyDict.get "inner1" (specify_connections example_network example_params)
      = Some conns ∧
    conns !! 2%nat = Some c ∧
    con_from c = "out2_0" ∧ con_to c = "inner0_1" ∧
    ∃ ea eb : edge,
      edge_named (specify_edges example_network example_params) "out2_0"
        = Some ea ∧
      edge_named (specify_edges example_network example_params) "inner0_1"
        = Some eb ∧
      edge_to ea = "inner1" ∧ edge_from eb = "inner1" ∧
      edge_from ea ≠ edge_to eb.
Proof.
  pose (conns := ltac:(
    let l := eval vm_compute in
      (PyDict.get "inner1"
         (specify_connections example_network example_params)) in
    match l with Some ?x => exact x end) : list connection).
  pose (c := ltac:(
    let l := eval vm_compute in (conns !! 2%nat) in
    match l with Some ?x => exact x end) : connection).
  exists conns, c.
  split; [reflexivity|]. split; [reflexivity|].
  split; [reflexivity|]. split; [reflexivity|].
  refine (connections_cross_their_node example_network example_params
            "inner1" conns c eq_refl _).
  apply (list_elem_of_lookup_2 _ 2%nat). reflexivity.
Defined.

(** X7. Every movement through an interior node other than the turn back
    is connected: for an edge arriving at the node and an edge leaving it
    towards another node than the first came from, the node's list holds
    the connection between the two. *)
Theorem every_through_movement_is_connected (self : DaYuanNetwork)
    (np : NetParams) (key : string) (conns : list connection)
    (ea eb : edge) :
  PyDict.get key (specify_connections self np) = Some conns →
  ea ∈ specify_edges self np →
  eb ∈ specify_edges self np →
  edge_to ea = key →
  edge_from eb = key →
  edge_from ea ≠ edge_to eb →
  ∃ c : connection,
    c ∈ conns ∧ con_from c = edge_id ea ∧ con_to c = edge_id eb.
Proof.
  intros Hget%PyDict_get_elem_of Ha Hb Hto Hfrom Hne.
  assert (H : Forall (fun kv : string * list connection =>
      Forall (fun ea => Forall (fun eb =>
        edge_to ea = kv.1 → edge_from eb = kv.1 →
        edge_from ea ≠ edge_to eb →
        Exists (fun c => con_from c = edge_id ea ∧ con_to c = edge_id eb)
               kv.2)
        (specify_edges self np)) (specify_edges self np))
      (PyDict.items (specify_connections self np)))
    by (apply (bool_decide_unpack _); vm_compute; exact I).
  rewrite Forall_forall in H. specialize (H _ Hget). cbv beta in H.
  rewrite Forall_forall in H. specialize (H _ Ha). cbv beta in H.
  rewrite Forall_forall in H. specialize (H _ Hb Hto Hfrom Hne).
  cbn beta iota delta [fst snd] in H.
  apply Exists_exists in H as (c & Hc & Hcf & Hct).
  exists c. auto.
Qed.

Lemma every_through_movement_is_connected_witness :
  let ea := {| edge_id := "out5_1"; edge_priority := 78; edge_from := "out5";
               edge_to := "inner3"; edge_length := 100 |} in
  let eb := {| edge_id := "inner2_1"; edge_priority := 78;
               edge_from := "inner3"; edge_to := "inner2";
               edge_length := 100 |} in
  ∃ conns : list connection,
    PyDict.get "inner3" (specify_connections example_network example_params)
      = Some conns ∧
    ea ∈ specify_edges example_network example_params ∧
    eb ∈ specify_edges example_network example_params ∧
    edge_from ea ≠ edge_to eb ∧
    ∃ c : connection,
      c ∈ conns ∧ con_from c = "out5_1" ∧ con_to c = "inner2_1".
Proof.
  intros ea eb.
  assert (Ha : ea ∈ specify_edges example_network example_params)
    by (apply (list_elem_of_lookup_2 _ 16%nat); reflexivity).
  assert (Hb : eb ∈ specify_edges example_network example_params)
    by (apply (list_elem_of_lookup_2 _ 5%nat); reflexivity).
  assert (Hne : edge_from ea ≠ edge_to eb) by (simpl; discriminate).
  eexists. split; [reflexivity|].
  split; [exact Ha|]. split; [exact Hb|]. split; [exact Hne|].
  exact (every_through_movement_is_connected example_network example_params
           "inner3" _ ea eb eq_refl Ha Hb eq_refl eq_refl Hne).
Defined.

(** X8. No movement is declared twice: two connections of the dict with
    the same "from" and "to" edges are the same entry. *)
Theorem connections_are_listed_once (self : DaYuanNetwork) (np : NetParams)
    (i j : nat) (c1 c2 : connection) :
  all_connections (specify_connections self np) !! i = Some c1 →
  all_connections (specify_connections self np) !! j = Some c2 →
  con_from c1 = con_from c2 →
  con_to c1 = con_to c2 →
  i = j.
Proof.
  intros H1 H2 Hf Ht.
  apply (NoDup_map_lookup_inj (fun c => (con_from c, con_to c))
           (all_connections (specify_connections self np)) i j c1 c2);
    [|assumption|assumption|congruence].
  apply (bool_decide_unpack _). vm_compute. exact I.
Qed.

Lemma connections_are_listed_once_witness :
  ∃ c : connection,
    all_connections (specify_connections example_network example_params)
      !! 23%nat = Some c ∧
    con_from c = "out5_1" ∧ con_to c = "inner2_1" ∧ 23%nat = 23%nat.
Proof.
  eexists. split; [reflexivity|]. split; [reflexivity|]. split; [reflexivity|].
  exact (connections_are_listed_once example_network example_params
           23 23 _ _ eq_refl eq_refl eq_refl eq_refl).
Defined.

(** ** Routes and the rest of the network *)

(** With pairwise distinct keys, an item of a dict is what [get] finds
    under its key. *)
Lemma PyDict_elem_of_get {V : Type} (d : PyDict.t V) (k : string) (v : V) :
  NoDup (PyDict.keys d) → (k, v) ∈ PyDict.items d → PyDict.get k d = Some v.
Proof.
  unfold PyDict.keys, PyDict.items.
  induction d as [|[k' v'] d IH]; simpl; intros Hnd Hin.
  - inversion Hin.
  - apply NoDup_cons in Hnd as [Hk' Hnd].
    apply elem_of_cons in Hin as [[= -> ->]|Hin].
    + now rewrite String.eqb_refl.
    + destruct (String.eqb_spec k k') as [->|Hne]; [|now apply IH].
      exfalso. apply Hk'.
      apply list_elem_of_In. apply (in_map fst _ (k', v)).
      now apply list_elem_of_In.
Qed.

Lemma route_keys_unique (self : DaYuanNetwork) (np : NetParams) :
  NoDup (PyDict.keys (specify_routes self np)).
Proof.
  rewrite route_keys. apply (bool_decide_unpack _). vm_compute. exact I.
Qed.

(** A property that holds of every weighted path of the table holds of
    the paths found under a key. *)
Lemma route_paths_Forall (self : DaYuanNetwork) (np : NetParams)
    (P : weighted_path → Prop) (key : string) (paths : list weighted_path)
    (wp : weighted_path) :
  Forall P (all_paths (specify_routes self np)) →
  PyDict.get key (specify_routes self np) = Some paths →
  wp ∈ paths →
  P wp.
Proof.
  intros HF Hget Hwp. rewrite Forall_forall in HF.
  apply HF. exact (PyDict_flat_elem _ key paths wp Hget Hwp).
Qed.

(** X9. Every step of every route is a declared movement: for two
    consecutive edge ids of a path, the connection from the first to the
    second is listed under the node where the first edge ends. *)
Theorem route_steps_are_connections (self : DaYuanNetwork) (np : NetParams)
    (key : string) (paths : list weighted_path) (wp : weighted_path)
    (k : nat) (a b : string) :
  PyDict.get key (specify_routes self np) = Some paths →
  wp ∈ paths →
  wp.1 !! k = Some a →
  wp.1 !! S k = Some b →
  ∃ (ea : edge) (conns : list connection) (c : connection),
    edge_named (specify_edges self np) a = Some ea ∧
    PyDict.get (edge_to ea) (specify_connections self np) = Some conns ∧
    c ∈ conns ∧ con_from c = a ∧ con_to c = b.
Proof.
  intros Hget Hwp Ha Hb.
  pose proof (steps_lookup _ _ _ _ Ha Hb) as Hst.
  assert (HF : Forall (fun wp : weighted_path =>
      Forall (fun ab : string * string =>
        match edge_named (specify_edges self np) ab.1 with
        | Some ea =>
            match PyDict.get (edge_to ea) (specify_connections self np) with
            | Some conns =>
                existsb (fun c => String.eqb (con_from c) ab.1
                                  && String.eqb (con_to c) ab.2) conns
            | None => false
            end
        | None => false
        end = true) (steps wp.1))
      (all_paths (specify_routes self np)))
    by (apply (bool_decide_unpack _); vm_compute; exact I).
  pose proof (route_paths_Forall self np _ key paths wp HF Hget Hwp) as H.
  cbv beta in H. rewrite Forall_forall in H. specialize (H _ Hst).
  cbn beta iota delta [fst snd] in H.
  destruct (edge_named _ a) as [ea|] eqn:Hea; [|discriminate].
  destruct (PyDict.get (edge_to ea) _) as [conns|] eqn:Hconns; [|discriminate].
  apply existsb_exists in H as (c & Hc & [H1 H2]%andb_true_iff).
  apply String.eqb_eq in H1, H2. apply list_elem_of_In in Hc.
  exists ea, conns, c.
  split; [reflexivity|]. split; [exact Hconns|]. split; [exact Hc|].
  split; [exact H1|exact H2].
Qed.

Lemma route_steps_are_connections_witness :
  ∃ (paths : list weighted_path) (wp : weighted_path),
    PyDict.get "out4_0" (specify_routes example_network example_params)
      = Some paths ∧
    paths !! 2%nat = Some wp ∧
    wp.1 !! 2%nat = Some "inner1_1" ∧
    wp.1 !! 3%nat = Some "out2_1" ∧
    ∃ (ea : edge) (conns : list connection) (c : connection),
      edge_named (specify_edges example_network example_params) "inner1_1"
        = Some ea ∧
      PyDict.get (edge_to ea)
        (specify_connections example_network example_params) = Some conns ∧
      c ∈ conns ∧ con_from c = "inner1_1" ∧ con_to c = "out2_1".
Proof.
  pose (paths := ltac:(
    let l := eval vm_compute in
      (PyDict.get "out4_0" (specify_routes example_network example_params)) in
    match l with Some ?x => exact x end) : list weighted_path).
  pose (wp := ltac:(
    let l := eval vm_compute in (paths !! 2%nat) in
    match l with Some ?x => exact x end) : weighted_path).
  exists paths, wp.
  split; [reflexivity|]. split; [reflexivity|].
  split; [reflexivity|]. split; [reflexivity|].
  refine (route_steps_are_connections example_network example_params
            "out4_0" paths wp 2 "inner1_1" "out2_1" eq_refl _ eq_refl eq_refl).
  apply (list_elem_of_lookup_2 _ 2%nat). reflexivity.
Defined.

(** X10. No connection is dead: every declared movement is a step of at
    least one route. *)
Theorem every_connection_is_used (self : DaYuanNetwork) (np : NetParams)
    (n : string) (conns : list connection) (c : connection) :
  PyDict.get n (specify_connections self np) = Some conns →
  c ∈ conns →
  ∃ (key : string) (paths : list weighted_path) (wp : weighted_path)
    (k : nat),
    PyDict.get key (specify_routes self np) = Some paths ∧
    wp ∈ paths ∧
    wp.1 !! k = Some (con_from c) ∧ wp.1 !! S k = Some (con_to c).
Proof.
  intros Hget Hc.
  pose proof (PyDict_flat_elem _ n conns c Hget Hc) as Hall.
  assert (HF : Forall (fun c =>
      Exists (fun kv : string * list weighted_path =>
        Exists (fun wp : weighted_path =>
                  (con_from c, con_to c) ∈ steps wp.1) kv.2)
        (PyDict.items (specify_routes self np)))
      (all_connections (specify_connections self np)))
    by (apply (bool_decide_unpack _); vm_compute; exact I).
  rewrite Forall_forall in HF. specialize (HF _ Hall). cbv beta in HF.
  apply Exists_exists in HF as ([key paths] & Hkv & HE).
  apply Exists_exists in HE as (wp & Hwp & Hst).
  apply steps_inv in Hst as (k & Hk1 & Hk2).
  exists key, paths, wp, k.
  split; [|auto].
  apply PyDict_elem_of_get; [apply route_keys_unique|exact Hkv].
Qed.

Lemma every_connection_is_used_witness :
  ∃ (conns : list connection) (c : connection),
    PyDict.get "inner0" (specify_connections example_network example_params)
      = Some conns ∧
    conns !! 2%nat = Some c ∧
    con_from c = "out1_0" ∧ con_to c = "out0_1" ∧
    ∃ (key : string) (paths : list weighted_path) (wp : weighted_path)
      (k : nat),
      PyDict.get key (specify_routes example_network example_params)
        = Some paths ∧
      wp ∈ paths ∧
      wp.1 !! k = Some "out1_0" ∧ wp.1 !! S k = Some "out0_1".
Proof.
  pose (conns := ltac:(
    let l := eval vm_compute in
      (PyDict.get "inner0"
         (specify_connections example_network example_params)) in
    match l with Some ?x => exact x end) : list connection).
  pose (c := ltac:(
    let l := eval vm_compute in (conns !! 2%nat) in
    match l with Some ?x => exact x end) : connection).
  exists conns, c.
  split; [reflexivity|]. split; [reflexivity|].
  split; [reflexivity|]. split; [reflexivity|].
  refine (every_connection_is_used example_network example_params
            "inner0" conns c eq_refl _).
  apply (list_elem_of_lookup_2 _ 2%nat). reflexivity.
Defined.

(** X11. Every route runs from one boundary node to another one: it has
    at least two edges, its first edge leaves an outer node and its last
    edge arrives at a different outer node. *)
Theorem routes_join_two_boundary_nodes (self : DaYuanNetwork)
    (np : NetParams) (key : string) (paths : list weighted_path)
    (wp : weighted_path) :
  PyDict.get key (specify_routes self np) = Some paths →
  wp ∈ paths →
  ∃ o d : string,
    route_origin (specify_edges self np) wp.1 = Some o ∧
    route_destination (specify_edges self np) wp.1 = Some d ∧
    o ∈ map node_id (_outer_nodes self) ∧
    d ∈ map node_id (_outer_nodes self) ∧
    o ≠ d ∧
    (2 ≤ length wp.1)%nat.
Proof.
  intros Hget Hwp.
  assert (HF : Forall (fun wp : weighted_path =>
      Exists (fun o => Exists (fun d =>
        route_origin (specify_edges self np) wp.1 = Some o ∧
        route_destination (specify_edges self np) wp.1 = Some d ∧
        o ≠ d ∧ (2 ≤ length wp.1)%nat)
        (map node_id (_outer_nodes self)))
        (map node_id (_outer_nodes self)))
      (all_paths (specify_routes self np)))
    by (apply (bool_decide_unpack _); vm_compute; exact I).
  pose proof (route_paths_Forall self np _ key paths wp HF Hget Hwp) as H.
  cbv beta in H.
  apply Exists_exists in H as (o & Ho & H).
  apply Exists_exists in H as (d & Hd & Horig & Hdest & Hne & Hlen).
  exists o, d. auto 10.
Qed.

Lemma routes_join_two_boundary_nodes_witness :
  ∃ (paths : list weighted_path) (wp : weighted_path),
    PyDict.get "out1_0" (specify_routes example_network example_params)
      = Some paths ∧
    paths !! 4%nat = Some wp ∧
    ∃ o d : string,
      route_origin (specify_edges example_network example_params) wp.1
        = Some o ∧
      route_destination (specify_edges example_network example_params) wp.1
        = Some d ∧
      o ∈ map node_id (_outer_nodes example_network) ∧
      d ∈ map node_id (_outer_nodes example_network) ∧
      o ≠ d ∧
      (2 ≤ length wp.1)%nat.
Proof.
  pose (paths := ltac:(
    let l := eval vm_compute in
      (PyDict.get "out1_0" (specify_routes example_network example_params)) in
    match l with Some ?x => exact x end) : list weighted_path).
  pose (wp := ltac:(
    let l := eval vm_compute in (paths !! 4%nat) in
    match l with Some ?x => exact x end) : weighted_path).
  exists paths, wp.
  split; [reflexivity|]. split; [reflexivity|].
  assert (Hwp : wp ∈ paths)
    by (apply (list_elem_of_lookup_2 _ 4%nat); reflexivity).
  exact (routes_join_two_boundary_nodes example_network example_params
           "out1_0" paths wp eq_refl Hwp).
Defined.

(** X12. From every entry edge exactly one route leads to each of the
    other boundary nodes. *)
Theorem one_route_to_every_other_boundary_node (self : DaYuanNetwork)
    (np : NetParams) (key : string) (paths : list weighted_path)
    (o : string) :
  PyDict.get key (specify_routes self np) = Some paths →
  o ∈ map node_id (_outer_nodes self) →
  edge_from <$> edge_named (specify_edges self np) key ≠ Some o →
  length (paths_to (specify_edges self np) o paths) = 1%nat.
Proof.
  intros Hget%PyDict_get_elem_of Ho Hne.
  assert (HF : Forall (fun kv : string * list weighted_path =>
      Forall (fun o =>
        edge_from <$> edge_named (specify_edges self np) kv.1 ≠ Some o →
        length (paths_to (specify_edges self np) o kv.2) = 1%nat)
        (map node_id (_outer_nodes self)))
      (PyDict.items (specify_routes self np)))
    by (apply (bool_decide_unpack _); vm_compute; exact I).
  rewrite Forall_forall in HF. specialize (HF _ Hget). cbv beta in HF.
  rewrite Forall_forall in HF. exact (HF _ Ho Hne).
Qed.

Lemma one_route_to_every_other_boundary_node_witness :
  ∃ paths : list weighted_path,
    PyDict.get "out3_0" (specify_routes example_network example_params)
      = Some paths ∧
    "out0" ∈ map node_id (_outer_nodes example_network) ∧
    edge_from <$> edge_named (specify_edges example_network example_params)
                    "out3_0" ≠ Some "out0" ∧
    length (paths_to (specify_edges example_network example_params)
              "out0" paths) = 1%nat.
Proof.
  pose (paths := ltac:(
    let l := eval vm_compute in
      (PyDict.get "out3_0" (specify_routes example_network example_params)) in
    match l with Some ?x => exact x end) : list weighted_path).
  exists paths.
  assert (Ho : "out0" ∈ map node_id (_outer_nodes example_network))
    by (apply (list_elem_of_lookup_2 _ 0%nat); reflexivity).
  assert (Hne : edge_from <$> edge_named
                  (specify_edges example_network example_params) "out3_0"
                ≠ Some "out0") by (vm_compute; discriminate).
  split; [reflexivity|]. split; [exact Ho|]. split; [exact Hne|].
  exact (one_route_to_every_other_boundary_node example_network
           example_params "out3_0" paths "out0" eq_refl Ho Hne).
Defined.

(** X13. Routes are simple: no path uses an edge twice or passes a node
    twice. *)
Theorem route_paths_are_simple (self : DaYuanNetwork) (np : NetParams)
    (key : string) (paths : list weighted_path) (wp : weighted_path) :
  PyDict.get key (specify_routes self np) = Some paths →
  wp ∈ paths →
  NoDup wp.1 ∧
  NoDup (visited_nodes (specify_edges self np) wp.1) ∧
  None ∉ visited_nodes (specify_edges self np) wp.1.
Proof.
  intros Hget Hwp.
  refine (route_paths_Forall self np
            (fun wp => NoDup wp.1 ∧
               NoDup (visited_nodes (specify_edges self np) wp.1) ∧
               None ∉ visited_nodes (specify_edges self np) wp.1)
            key paths wp _ Hget Hwp).
  apply (bool_decide_unpack _). vm_compute. exact I.
Qed.

Lemma route_paths_are_simple_witness :
  ∃ (paths : list weighted_path) (wp : weighted_path),
    PyDict.get "out5_1" (specify_routes example_network example_params)
      = Some paths ∧
    paths !! 0%nat = Some wp ∧
    visited_nodes (specify_edges example_network example_params) wp.1
      = [Some "out5"; Some "inner3"; Some "inner2"; Some "inner1";
         Some "inner0"; Some "out0"] ∧
    NoDup wp.1.
Proof.
  pose (paths := ltac:(
    let l := eval vm_compute in
      (PyDict.get "out5_1" (specify_routes example_network example_params)) in
    match l with Some ?x => exact x end) : list weighted_path).
  pose (wp := ltac:(
    let l := eval vm_compute in (paths !! 0%nat) in
    match l with Some ?x => exact x end) : weighted_path).
  exists paths, wp.
  split; [reflexivity|]. split; [reflexivity|]. split; [reflexivity|].
  assert (Hwp : wp ∈ paths)
    by (apply (list_elem_of_lookup_2 _ 0%nat); reflexivity).
  exact (proj1 (route_paths_are_simple example_network example_params
                  "out5_1" paths wp eq_refl Hwp)).
Defined.

(** X14. Every probability of the route table is positive and at most
    1. *)
Theorem route_probabilities_are_proper (self : DaYuanNetwork)
    (np : NetParams) (key : string) (paths : list weighted_path)
    (wp : weighted_path) :
  PyDict.get key (specify_routes self np) = Some paths →
  wp ∈ paths →
  (0 <? wp.2)%float = true ∧ (wp.2 <=? 1)%float = true.
Proof.
  intros Hget Hwp.
  refine (route_paths_Forall self np
            (fun wp => (0 <? wp.2)%float = true ∧ (wp.2 <=? 1)%float = true)
            key paths wp _ Hget Hwp).
  unfold all_paths, PyDict.items, specify_routes; simpl.
  repeat (apply Forall_cons; split; [split; reflexivity|]).
  constructor.
Qed.

Lemma route_probabilities_are_proper_witness :
  ∃ (paths : list weighted_path) (wp : weighted_path),
    PyDict.get "out0_0" (specify_routes example_network example_params)
      = Some paths ∧
    paths !! 4%nat = Some wp ∧
    wp.2 = 0.4%float ∧
    (0 <? wp.2)%float = true ∧ (wp.2 <=? 1)%float = true.
Proof.
  pose (paths := ltac:(
    let l := eval vm_compute in
      (PyDict.get "out0_0" (specify_routes example_network example_params)) in
    match l with Some ?x => exact x end) : list weighted_path).
  pose (wp := ltac:(
    let l := eval vm_compute in (paths !! 4%nat) in
    match l with Some ?x => exact x end) : weighted_path).
  exists paths, wp.
  split; [reflexivity|]. split; [reflexivity|]. split; [reflexivity|].
  refine (route_probabilities_are_proper example_network example_params
            "out0_0" paths wp eq_refl _).
  apply (list_elem_of_lookup_2 _ 4%nat). reflexivity.
Defined.

(** X15. The keys of the route table are exactly the edges that leave a
    boundary node: an edge has routes if and only if vehicles can enter
    the network on it. *)
Theorem routes_start_on_the_edges_leaving_the_boundary (self : DaYuanNetwork)
    (np : NetParams) (e : edge) :
  e ∈ specify_edges self np →
  (edge_from e ∈ map node_id (_outer_nodes self) ↔
   edge_id e ∈ PyDict.keys (specify_routes self np)).
Proof.
  revert e. apply Forall_forall.
  apply (bool_decide_unpack _). vm_compute. exact I.
Qed.

Lemma routes_start_on_the_edges_leaving_the_boundary_witness :
  let e := {| edge_id := "out5_1"; edge_priority := 78; edge_from := "out5";
              edge_to := "inner3"; edge_length := 100 |} in
  e ∈ specify_edges example_network example_params ∧
  (edge_from e ∈ map node_id (_outer_nodes example_network) ↔
   edge_id e ∈ PyDict.keys (specify_routes example_network example_params)).
Proof.
  intros e.
  assert (He : e ∈ specify_edges example_network example_params)
    by (apply (list_elem_of_lookup_2 _ 16%nat); reflexivity).
  split; [exact He|].
  exact (routes_start_on_the_edges_leaving_the_boundary example_network
           example_params e He).
Defined.

(** X16. Every edge id that occurs in a route is the id of an edge
    returned by [specify_edges]. *)
Theorem route_edges_exist (self : DaYuanNetwork) (np : NetParams)
    (key : string) (paths : list weighted_path) (wp : weighted_path)
    (a : string) :
  PyDict.get key (specify_routes self np) = Some paths →
  wp ∈ paths →
  a ∈ wp.1 →
  a ∈ map edge_id (specify_edges self np).
Proof.
  intros Hget Hwp Ha.
  assert (HF : Forall (fun wp : weighted_path =>
                 Forall (fun a => a ∈ map edge_id (specify_edges self np)) wp.1)
               (all_paths (specify_routes self np))).
  { rewrite edge_ids. apply (bool_decide_unpack _). vm_compute. exact I. }
  pose proof (route_paths_Forall self np _ key paths wp HF Hget Hwp) as H.
  cbv beta in H. rewrite Forall_forall in H. exact (H a Ha).
Qed.

Lemma route_edges_exist_witness :
  ∃ (paths : list weighted_path) (wp : weighted_path),
    PyDict.get "out2_0" (specify_routes example_network example_params)
      = Some paths ∧
    paths !! 1%nat = Some wp ∧
    "inner0_1" ∈ wp.1 ∧
    "inner0_1" ∈ map edge_id (specify_edges example_network example_params).
Proof.
  pose (paths := ltac:(
    let l := eval vm_compute in
      (PyDict.get "out2_0" (specify_routes example_network example_params)) in
    match l with Some ?x => exact x end) : list weighted_path).
  pose (wp := ltac:(
    let l := eval vm_compute in (paths !! 1%nat) in
    match l with Some ?x => exact x end) : weighted_path).
  exists paths, wp.
  assert (Hwp : wp ∈ paths)
    by (apply (list_elem_of_lookup_2 _ 1%nat); reflexivity).
  assert (Ha : "inner0_1" ∈ wp.1)
    by (apply (list_elem_of_lookup_2 _ 1%nat); reflexivity).
  split; [reflexivity|]. split; [reflexivity|]. split; [exact Ha|].
  exact (route_edges_exist example_network example_params
           "out2_0" paths wp "inner0_1" eq_refl Hwp Ha).
Defined.

(** X17. Every edge of the network lies on at least one route. *)
Theorem every_edge_is_on_a_route (self : DaYuanNetwork) (np : NetParams)
    (e : edge) :
  e ∈ specify_edges self np →
  ∃ (key : string) (paths : list weighted_path) (wp : weighted_path),
    PyDict.get key (specify_routes self np) = Some paths ∧
    wp ∈ paths ∧
    edge_id e ∈ wp.1.
Proof.
  intros He.
  assert (HF : Forall (fun e =>
      Exists (fun kv : string * list weighted_path =>
        Exists (fun wp : weighted_path => edge_id e ∈ wp.1) kv.2)
        (PyDict.items (specify_routes self np)))
      (specify_edges self np))
    by (apply (bool_decide_unpack _); vm_compute; exact I).
  rewrite Forall_forall in HF. specialize (HF _ He). cbv beta in HF.
  apply Exists_exists in HF as ([key paths] & Hkv & HE).
  apply Exists_exists in HE as (wp & Hwp & Hin).
  exists key, paths, wp.
  split; [|auto].
  apply PyDict_elem_of_get; [apply route_keys_unique|exact Hkv].
Qed.

Lemma every_edge_is_on_a_route_witness :
  let e := {| edge_id := "out0_1"; edge_priority := 78; edge_from := "inner0";
              edge_to := "out0"; edge_length := 100 |} in
  e ∈ specify_edges example_network example_params ∧
  ∃ (key : string) (paths : list weighted_path) (wp : weighted_path),
    PyDict.get key (specify_routes example_network example_params)
      = Some paths ∧
    wp ∈ paths ∧
    "out0_1" ∈ wp.1.
Proof.
  intros e.
  assert (He : e ∈ specify_edges example_network example_params)
    by (apply (list_elem_of_lookup_2 _ 7%nat); reflexivity).
  split; [exact He|].
  exact (every_edge_is_on_a_route example_network example_params e He).
Defined.

(** ** Start positions *)

(** X18. The start positions returned by [gen_custom_start_pos] are one
    per key of the route table, in the same order; each lies on an
    existing edge, at an offset within the length of that edge, on lane 0;
    and there are as many lanes as positions. *)
Theorem start_positions_are_on_entry_edges {Cls Cfg : Type} (cls : Cls)
    (cfg : Cfg) (self : DaYuanNetwork) (np : NetParams) (n : Z) :
  let r := gen_custom_start_pos cls np cfg n in
  map fst r.1 = PyDict.keys (specify_routes self np) ∧
  length r.2 = length r.1 ∧
  Forall (fun ep : string * Z =>
            ∃ ed : edge,
              edge_named (specify_edges self np) ep.1 = Some ed ∧
              0 ≤ ep.2 < edge_length ed)
         r.1 ∧
  Forall (fun lane : Z => lane = 0) r.2.
Proof.
  intros r. split; [reflexivity|]. split; [reflexivity|]. split.
  - unfold r, gen_custom_start_pos; cbn [fst snd].
    repeat (apply Forall_cons; split;
            [eexists; split; [reflexivity|cbv; split; [discriminate|reflexivity]]|]).
    constructor.
  - apply (bool_decide_unpack _). vm_compute. exact I.
Qed.

(** X19. [gen_custom_start_pos] does not read [num_vehicles]: it returns
    six positions whatever number is asked for, so the number of positions
    is the number of vehicles only when that number is 6. *)
Theorem start_positions_ignore_num_vehicles {Cls Cfg : Type} (cls : Cls)
    (cfg : Cfg) (np : NetParams) (n : Z) :
  length (gen_custom_start_pos cls np cfg n).1 = 6%nat ∧
  (Z.of_nat (length (gen_custom_start_pos cls np cfg n).1) = n ↔ n = 6).
Proof.
  split; [reflexivity|].
  change (length (gen_custom_start_pos cls np cfg n).1) with 6%nat.
  lia.
Qed.

(** ** The example script *)

(** X20. [get_flow_params] never fails on its list index, passes the
    additional parameters on unchanged, asks for custom spacing, and adds
    one inflow per key of the route table, in the same order: vehicles
    flow in exactly on the edges that have routes. *)
Theorem get_flow_params_feeds_the_entry_edges
    (additional_net_params : gmap string pyval)
    (self : DaYuanNetwork) (np : NetParams) :
  ∃ (initial : Example.InitialConfig) (inflows : list Example.inflow),
    Example.get_flow_params additional_net_params
      = Some (initial, inflows,
              {| additional_params := additional_net_params |}) ∧
    Example.spacing initial = "custom" ∧
    map Example.inflow_edge inflows = PyDict.keys (specify_routes self np) ∧
    map Example.inflow_edge inflows
      = map fst (gen_custom_start_pos self np initial
                   (Z.of_nat (length inflows))).1.
Proof.
  eexists _, _. split; [reflexivity|]. repeat split.
Qed.

(** X21. Whatever its arguments, the traffic light programs that
    [da_yuan_example] adds fit the network it builds: they are added for
    exactly the interior nodes, which are the keys of the connection dict,
    in the same order, and every phase state string has one character per
    connection of its node.  The number of vehicles it adds is the number
    of start positions. *)
Theorem example_traffic_lights_fit_the_network (default_net_params : NetParams)
    (render : option bool) (use_inflows : bool) (ex : Example.experiment) :
  Example.da_yuan_example default_net_params render use_inflows = Some ex →
  let network := Example.exp_network ex in
  let np := Example.exp_net_params ex in
  map Example.tl_node (Example.exp_tl_logic ex)
    = map node_id (_inner_nodes network) ∧
  map Example.tl_node (Example.exp_tl_logic ex)
    = PyDict.keys (specify_connections network np) ∧
  Forall (fun call : Example.tl_add =>
            ∃ conns : list connection,
              PyDict.get (Example.tl_node call)
                (specify_connections network np) = Some conns ∧
              Forall (fun ph : Example.phase =>
                        String.length (Example.state ph) = length conns)
                     (Example.tl_phases call))
         (Example.exp_tl_logic ex) ∧
  Example.exp_num_vehicles ex
    = Z.of_nat (length (gen_custom_start_pos network np
                          (Example.exp_initial_config ex)
                          (Example.exp_num_vehicles ex)).1).
Proof.
  intros Hex.
  assert (Htl : map Example.tl_node (Example.exp_tl_logic ex)
                = ["inner0"; "inner1"; "inner2"; "inner3"] ∧
                Forall (fun call : Example.tl_add =>
                          Forall (fun ph : Example.phase =>
                                    String.length (Example.state ph) = 6%nat)
                                 (Example.tl_phases call))
                       (Example.exp_tl_logic ex) ∧
                Example.exp_num_vehicles ex = 6).
  { destruct use_inflows; injection Hex as <-;
      (split; [reflexivity|]; split; [|reflexivity]);
      apply (bool_decide_unpack _); vm_compute; exact I. }
  destruct Htl as (Hnodes & Hphases & Hnum).
  cbv zeta. rewrite Hnodes, Hnum.
  split; [reflexivity|]. split; [reflexivity|]. split; [|reflexivity].
  apply Forall_forall. intros call Hcall.
  rewrite Forall_forall in Hphases. specialize (Hphases call Hcall).
  assert (Hin : Example.tl_node call ∈ ["inner0"; "inner1"; "inner2"; "inner3"]).
  { rewrite <- Hnodes. apply list_elem_of_In, in_map, list_elem_of_In, Hcall. }
  repeat (apply elem_of_cons in Hin as [->|Hin];
          [eexists; split; [reflexivity|exact Hphases]|]).
  inversion Hin.
Qed.

Lemma example_traffic_lights_fit_the_network_witness :
  ∃ ex : Example.experiment,
    Example.da_yuan_example example_params (Some false) false = Some ex ∧
    map Example.tl_node (Example.exp_tl_logic ex)
      = map node_id (_inner_nodes (Example.exp_network ex)) ∧
    map Example.tl_node (Example.exp_tl_logic ex)
      = PyDict.keys (specify_connections (Example.exp_network ex)
                       (Example.exp_net_params ex)).
Proof.
  pose (ex := ltac:(
    let l := eval lazy in
      (Example.da_yuan_example example_params (Some false) false) in
    match l with Some ?x => exact x end) : Example.experiment).
  exists ex.
  assert (Hex : Example.da_yuan_example example_params (Some false) false
                = Some ex) by reflexivity.
  split; [exact Hex|].
  destruct (example_traffic_lights_fit_the_network example_params
              (Some false) false ex Hex) as (H1 & H2 & _).
  split; [exact H1|exact H2].
Defined.

(** X22. Run with inflows, which is the default, the example builds a
    network whose four interior nodes are all of type "traffic_light", so
    every node that is given a traffic light program is signalised; its
    inflows enter on the edges of the start positions and there is one
    inflow per vehicle added. *)
Theorem example_with_inflows_is_signalised (default_net_params : NetParams)
    (render : option bool) :
  ∃ ex : Example.experiment,
    Example.da_yuan_example default_net_params render true = Some ex ∧
    let network := Example.exp_network ex in
    let np := Example.exp_net_params ex in
    Forall (fun call : Example.tl_add =>
              ∃ nd : node,
                node_named (specify_nodes network np) (Example.tl_node call)
                  = Some nd ∧
                node_type nd = "traffic_light")
           (Example.exp_tl_logic ex) ∧
    Forall (fun nd : node => node_type nd = "traffic_light")
           (_inner_nodes network) ∧
    map Example.inflow_edge (Example.exp_inflows ex)
      = map fst (gen_custom_start_pos network np
                   (Example.exp_initial_config ex)
                   (Example.exp_num_vehicles ex)).1 ∧
    Z.of_nat (length (Example.exp_inflows ex)) = Example.exp_num_vehicles ex.
Proof.
  eexists. split; [reflexivity|]. cbv zeta.
  split; [|split; [|split; reflexivity]].
  - cbn [Example.exp_tl_logic Example.exp_network Example.exp_net_params].
    repeat (apply Forall_cons; split;
            [eexists; split; reflexivity|]).
    constructor.
  - apply (bool_decide_unpack _). vm_compute. exact I.
Qed.

(** ** The naming scheme of edges *)

Lemma inner_edges_new_edge (self : DaYuanNetwork) :
  _inner_edges self =
  fold_left
    (fun edges i =>
       (edges ++ inner_new_edge i i (i + 1) "horizontal" 0)
       ++ inner_new_edge i (i + 1) i "horizontal" 1)
    (range 3) [].
Proof. reflexivity. Qed.

Lemma outer_edges_new_edge (self : DaYuanNetwork) :
  _outer_edges self =
  outer_new_edge 0 "out0" "inner0" "horizontal" 0
  ++ outer_new_edge 0 "inner0" "out0" "horizontal" 1
  ++ outer_new_edge 1 "out1" "inner0" "vertical" 0
  ++ outer_new_edge 1 "inner0" "out1" "vertical" 1
  ++ outer_new_edge 2 "out2" "inner1" "vertical" 0
  ++ outer_new_edge 2 "inner1" "out2" "vertical" 1
  ++ outer_new_edge 3 "out3" "inner2" "vertical" 0
  ++ outer_new_edge 3 "inner2" "out3" "vertical" 1
  ++ outer_new_edge 4 "out4" "inner3" "vertical" 0
  ++ outer_new_edge 4 "inner3" "out4" "vertical" 1
  ++ outer_new_edge 5 "out5" "inner3" "horizontal" 1
  ++ outer_new_edge 5 "inner3" "out5" "horizontal" 0.
Proof. reflexivity. Qed.

(** [str] prints different integers differently. *)
Lemma str_inj (a b : Z) : str a = str b → a = b.
Proof.
  unfold str. intros H.
  assert (Hn : ∀ z : Z, Z.to_int z ≠ Decimal.Pos Decimal.Nil ∧
                        Z.to_int z ≠ Decimal.Neg Decimal.Nil).
  { intros [|p|p]; simpl; split; try discriminate;
      intros [= Hp]; exact (DecimalPos.Unsigned.to_uint_nonnil p Hp). }
  apply DecimalZ.to_int_inj.
  assert (Hs : Some (Z.to_int a) = Some (Z.to_int b)).
  { rewrite <- (NilZero.isi (Z.to_int a)) by apply Hn.
    rewrite <- (NilZero.isi (Z.to_int b)) by apply Hn.
    now rewrite H. }
  now injection Hs.
Qed.

Lemma uint_no_underscore (d : Decimal.uint) :
  no_char "_"%char (NilEmpty.string_of_uint d) = true.
Proof. induction d; simpl; auto. Qed.

(** A printed integer holds digits and a sign, no underscore. *)
Lemma str_no_underscore (z : Z) : no_char "_"%char (str z) = true.
Proof.
  unfold str.
  destruct (Z.to_int z) as [d|d]; simpl.
  - destruct d; try reflexivity; apply (uint_no_underscore (_ d)).
  - destruct d; try reflexivity; apply (uint_no_underscore (_ d)).
Qed.

(** Two strings without [c] that are followed by [c] and a rest: equal
    wholes have equal parts. *)
Lemma append_sep_inj (c : Ascii.ascii) (s1 s2 t1 t2 : string) :
  no_char c s1 = true → no_char c s2 = true →
  s1 +:+ String c t1 = s2 +:+ String c t2 →
  s1 = s2 ∧ t1 = t2.
Proof.
  revert s2. induction s1 as [|a s1 IH]; intros [|b s2] H1 H2 H; simpl in *.
  - injection H as ->. auto.
  - injection H as <- _. rewrite Ascii.eqb_refl in H2. discriminate.
  - injection H as -> _. rewrite Ascii.eqb_refl in H1. discriminate.
  - injection H as -> H.
    apply andb_true_iff in H1 as [_ H1], H2 as [_ H2].
    destruct (IH s2 H1 H2 H) as [-> ->]. auto.
Qed.

(** X23. The ids that [new_edge] builds name the index and the lane
    without ambiguity: two inner edges, or two outer edges, get the same id
    only for the same index and the same lane, whatever the integers; and
    an inner edge never gets the id of an outer edge. *)
Theorem edge_id_scheme_is_injective (i j lane lane' : Z)
    (f t f' t' : Z) (fo to fo' to' o o' : string) :
  (map edge_id (inner_new_edge i f t o lane)
   = map edge_id (inner_new_edge j f' t' o' lane') →
   i = j ∧ lane = lane') ∧
  (map edge_id (outer_new_edge i fo to o lane)
   = map edge_id (outer_new_edge j fo' to' o' lane') →
   i = j ∧ lane = lane') ∧
  map edge_id (inner_new_edge i f t o lane)
  ≠ map edge_id (outer_new_edge j fo to o' lane').
Proof.
  assert (Hsplit : ∀ a b c d : Z,
            str a +:+ "_" +:+ str b = str c +:+ "_" +:+ str d →
            a = c ∧ b = d).
  { intros a b c d H.
    destruct (append_sep_inj "_"%char (str a) (str c) (str b) (str d)
                (str_no_underscore a) (str_no_underscore c) H) as [Ha Hb].
    split; apply str_inj; assumption. }
  split; [|split].
  - simpl. intros [= H]. apply Hsplit, H.
  - simpl. intros [= H]. apply Hsplit, H.
  - simpl. intros [= H].
Qed.

(** ** What the parameters can change *)

(** X24. Of all the network parameters the class reads only the truth
    value of ["traffic_lights"], and that only for the type of the interior
    nodes: for any two parameter sets the edges, connections, routes and
    outer nodes are the same, the nodes have the same ids, positions and
    radius, and the node lists are equal as soon as the two flags have the
    same truth value. *)
Theorem parameters_change_only_inner_node_types (name1 name2 : string)
    (np1 np2 : NetParams) :
  let self1 := __init__ name1 np1 in
  let self2 := __init__ name2 np2 in
  let flag (np : NetParams) :=
    params_get (additional_params np) "traffic_lights" (VBool true) in
  let place (n : node) := (node_id n, node_x n, node_y n, node_radius n) in
  specify_edges self1 np1 = specify_edges self2 np2 ∧
  specify_connections self1 np1 = specify_connections self2 np2 ∧
  specify_routes self1 np1 = specify_routes self2 np2 ∧
  _outer_nodes self1 = _outer_nodes self2 ∧
  map place (specify_nodes self1 np1) = map place (specify_nodes self2 np2) ∧
  (truthy (flag np1) = truthy (flag np2) →
   specify_nodes self1 np1 = specify_nodes self2 np2).
Proof.
  intros self1 self2 flag place.
  split; [reflexivity|]. split; [reflexivity|]. split; [reflexivity|].
  split; [reflexivity|]. split; [reflexivity|].
  intros Hflag.
  apply (collections_depend_on_flag_only self1 self2 np1 np2);
    [exact Hflag|reflexivity].
Qed.
